(** * EcoMeal AI front end: the two form panels

    A shallow embedding of the React components [RecipeGenerator] and
    [MenuAnalyzer]: the item collector (add / remove), the submit handler
    with its asynchronous continuation, the score look-ups and the part of
    the rendered view that shows a recipe.

    A component is modelled the way React runs it: a handler reads the state
    values captured by the current render and emits a list of effects (calls
    of [useState] setters, one [axios.post], one [console.error]); committing
    the setter calls gives the state of the next render. *)

From Stdlib Require Import List NArith ZArith Bool String Ascii Lia.
Import ListNotations.

Set Implicit Arguments.
Set Warnings "-register-all".

(* ================================================================= *)
(** ** JavaScript strings and the array methods the components use    *)
(* ================================================================= *)

Module JS.

(** A JavaScript string is a sequence of UTF-16 code units. *)
Definition jsstring := list N.

(** Source literals that are plain ASCII are written with [js]. *)
Definition js (s : string) : jsstring :=
  map N_of_ascii (list_ascii_of_string s).

(** [s === t] on strings: the same code units. *)
Fixpoint eqb (s t : jsstring) : bool :=
  match s, t with
  | [], [] => true
  | c :: s', d :: t' => N.eqb c d && eqb s' t'
  | _, _ => false
  end.

(** ToBoolean on a string: only the empty string is falsy. *)
Definition truthy (s : jsstring) : bool :=
  match s with [] => false | _ :: _ => true end.

(** WhiteSpace and LineTerminator code units of ECMAScript, the ones
    [String.prototype.trim] strips. *)
Definition isWhiteSpace (c : N) : bool :=
  ((9 <=? c) && (c <=? 13)        (* TAB LF VT FF CR *)
   || (c =? 32)                   (* SPACE *)
   || (c =? 160)                  (* NO-BREAK SPACE *)
   || (c =? 5760)                 (* U+1680 *)
   || (8192 <=? c) && (c <=? 8202)  (* U+2000 .. U+200A *)
   || (c =? 8232) || (c =? 8233)  (* U+2028 U+2029 *)
   || (c =? 8239)                 (* U+202F *)
   || (c =? 8287)                 (* U+205F *)
   || (c =? 12288)                (* U+3000 *)
   || (c =? 65279))%N.            (* U+FEFF *)

Fixpoint trimStart (s : jsstring) : jsstring :=
  match s with
  | [] => []
  | c :: s' => if isWhiteSpace c then trimStart s' else s
  end.

Definition trimEnd (s : jsstring) : jsstring :=
  rev (trimStart (rev s)).

Definition trim (s : jsstring) : jsstring :=
  trimEnd (trimStart s).

(** [Array.prototype.includes] on an array of strings. *)
Definition Array_includes (l : list jsstring) (x : jsstring) : bool :=
  existsb (eqb x) l.

(** [Array.prototype.filter] with the two-argument callback
    [(element, index) => ...]; [i] is the index of the head of [l]. *)
Fixpoint filter_from (A : Type) (f : A -> nat -> bool) (i : nat) (l : list A) : list A :=
  match l with
  | [] => []
  | x :: l' => if f x i then x :: filter_from f (S i) l' else filter_from f (S i) l'
  end.

Definition Array_filter (A : Type) (f : A -> nat -> bool) (l : list A) : list A :=
  filter_from f 0 l.

(** [Array.prototype.map] with the callback [(element, index) => ...]. *)
Fixpoint map_from (A B : Type) (f : A -> nat -> B) (i : nat) (l : list A) : list B :=
  match l with
  | [] => []
  | x :: l' => f x i :: map_from f (S i) l'
  end.

Definition Array_map (A B : Type) (f : A -> nat -> B) (l : list A) : list B :=
  map_from f 0 l.

(** [index !== i] for a number [index] and an array index [i]. *)
Definition neq_index (i : nat) (index : Z) : bool :=
  negb (Z.of_nat i =? index)%Z.

(** [a || b] where [a] is a string: [a] when truthy, else [b]. *)
Definition or_else (A : Type) (inj : jsstring -> A) (a : jsstring) (b : A) : A :=
  if truthy a then inj a else b.

(** The JSON values the request bodies are made of. *)
Inductive json : Type :=
| JNull
| JString (s : jsstring)
| JArray (l : list json)
| JObject (fields : list (string * json)).

(** Property look-up in an object literal. *)
Fixpoint lookup (k : string) (fields : list (string * json)) : option json :=
  match fields with
  | [] => None
  | (k', v) :: rest => if String.eqb k k' then Some v else lookup k rest
  end.

Definition get (k : string) (o : json) : option json :=
  match o with
  | JObject fields => lookup k fields
  | _ => None
  end.

(** Why an [axios.post] promise rejects. *)
Inductive failure : Type :=
| NetworkError
| BadStatus (code : Z)
| Timeout.

(** The body of an answer, as far as a component can tell bodies apart:
    the JSON text of an object of the interface [T] it expects, the JSON
    text [null], or no content at all, which is not JSON.  Other text
    that is not JSON is not covered: axios hands it on as a string, which
    the cells of the components are not typed for. *)
Inductive body (T : Type) : Type :=
| json_object (r : T)
| json_null
| no_content.

Arguments json_null {T}.
Arguments no_content {T}.

(** What comes back for a request. *)
Inductive answer (T : Type) : Type :=
| network_error
| timeout
| http (status : Z) (b : body T).

Arguments network_error {T}.
Arguments timeout {T}.

(** The defaults of axios, which the two calls leave in place (the library
    is not part of the repository).  [validateStatus]: the promise is
    fulfilled for a status from 200 to 299 and rejected for any other. *)
Definition validateStatus (status : Z) : bool :=
  (200 <=? status)%Z && (status <? 300)%Z.

(** [response.data]: JSON text is parsed; a body that is not JSON raises
    nothing and is handed on as it is, so an empty body gives the empty
    string.  [None] stands for the falsy values [null] and [''], which a
    component, reading the cell through its truthiness only, cannot tell
    apart. *)
Definition response_data (T : Type) (b : body T) : option T :=
  match b with
  | json_object r => Some r
  | json_null => None
  | no_content => None
  end.


End JS.

Import JS.

(* ================================================================= *)
(** ** Rendered elements                                              *)
(* ================================================================= *)

Module JSX.

(** A rendered element: tag or component name, [key], [className] (empty
    where the element has none), children; text and number children. *)
Inductive vnode : Type :=
| h (tag : string) (key : option nat) (className : jsstring) (children : list vnode)
| text (s : jsstring)
| number (n : Z).

Definition children (v : vnode) : list vnode :=
  match v with
  | h _ _ _ c => c
  | _ => []
  end.

Definition key (v : vnode) : option nat :=
  match v with
  | h _ k _ _ => k
  | _ => None
  end.

Definition className (v : vnode) : jsstring :=
  match v with
  | h _ _ c _ => c
  | _ => []
  end.

(** The elements named [t] in a tree, in document order. *)
Fixpoint by_tag (t : string) (v : vnode) : list vnode :=
  match v with
  | h tag _ _ c =>
      (if String.eqb tag t then [v] else []) ++ flat_map (by_tag t) c
  | _ => []
  end.

(** The text leaves and the number leaves below an element, in order. *)
Fixpoint texts (v : vnode) : list jsstring :=
  match v with
  | h _ _ _ c => flat_map texts c
  | text s => [s]
  | number _ => []
  end.

Fixpoint numbers (v : vnode) : list Z :=
  match v with
  | h _ _ _ c => flat_map numbers c
  | text _ => []
  | number n => [n]
  end.

End JSX.

Import JSX.

(** The four states of a panel as the view shows them. *)
Inductive status : Type := Idle | Loading | Success | Error.

(* ================================================================= *)
(** ** RecipeGenerator                                                *)
(* ================================================================= *)

Module RecipeResponse.

Record t : Type := {
  recipe_name : jsstring;
  ingredients : list jsstring;
  instructions : list jsstring;
  calories : Z;
  eco_tip : jsstring;
  eco_score : jsstring;
  health_score : jsstring;
  prep_time : jsstring;
  difficulty : jsstring
}.

End RecipeResponse.

Module RecipeGenerator.

(** The six [useState] cells of the component. *)
Record state : Type := {
  ingredients : list jsstring;
  newIngredient : jsstring;
  dietaryPreferences : jsstring;
  recipe : option RecipeResponse.t;
  loading : bool;
  error : jsstring
}.

Definition initial : state :=
  {| ingredients := []; newIngredient := []; dietaryPreferences := [];
     recipe := None; loading := false; error := [] |}.

(** What a handler can do: call a setter, post, log. *)
Inductive effect : Type :=
| setIngredients (v : list jsstring)
| setNewIngredient (v : jsstring)
| setDietaryPreferences (v : jsstring)
| setRecipe (v : option RecipeResponse.t)
| setLoading (v : bool)
| setError (v : jsstring)
| axios_post (url : jsstring) (body : json)
| console_error (label : jsstring) (err : failure).

Definition commit (st : state) (e : effect) : state :=
  match e with
  | setIngredients v =>
      {| ingredients := v; newIngredient := newIngredient st;
         dietaryPreferences := dietaryPreferences st; recipe := recipe st;
         loading := loading st; error := error st |}
  | setNewIngredient v =>
      {| ingredients := ingredients st; newIngredient := v;
         dietaryPreferences := dietaryPreferences st; recipe := recipe st;
         loading := loading st; error := error st |}
  | setDietaryPreferences v =>
      {| ingredients := ingredients st; newIngredient := newIngredient st;
         dietaryPreferences := v; recipe := recipe st;
         loading := loading st; error := error st |}
  | setRecipe v =>
      {| ingredients := ingredients st; newIngredient := newIngredient st;
         dietaryPreferences := dietaryPreferences st; recipe := v;
         loading := loading st; error := error st |}
  | setLoading v =>
      {| ingredients := ingredients st; newIngredient := newIngredient st;
         dietaryPreferences := dietaryPreferences st; recipe := recipe st;
         loading := v; error := error st |}
  | setError v =>
      {| ingredients := ingredients st; newIngredient := newIngredient st;
         dietaryPreferences := dietaryPreferences st; recipe := recipe st;
         loading := loading st; error := v |}
  | axios_post _ _ => st
  | console_error _ _ => st
  end.

Definition run (st : state) (effs : list effect) : state :=
  fold_left commit effs st.

(** The requests a handler sends, in order. *)
Fixpoint posts (effs : list effect) : list (jsstring * json) :=
  match effs with
  | [] => []
  | axios_post url body :: rest => (url, body) :: posts rest
  | _ :: rest => posts rest
  end.

(** [addIngredient], lines 25-30. *)
Definition addIngredient (st : state) : list effect :=
  if truthy (trim (newIngredient st))
     && negb (Array_includes (ingredients st) (trim (newIngredient st)))
  then [ setIngredients (ingredients st ++ [trim (newIngredient st)]);
         setNewIngredient (js "") ]
  else [].

(** [removeIngredient], lines 32-34. *)
Definition removeIngredient (st : state) (index : Z) : list effect :=
  [ setIngredients (Array_filter (fun _ i => neq_index i index) (ingredients st)) ].

(** [generateRecipe] up to its [await], lines 36-50. *)
Definition generateRecipe (st : state) : list effect :=
  if (List.length (ingredients st) =? 0)%nat
  then [ setError (js "Please add at least one ingredient") ]
  else [ setLoading true;
         setError (js "");
         setRecipe None;
         axios_post (js "http://localhost:8001/generate-recipe")
           (JObject [ ("ingredients"%string, JArray (List.map JString (ingredients st)));
                      ("dietary_preferences"%string,
                       or_else JString (dietaryPreferences st) JNull) ]) ].

(** What the awaited promise settles to.  [data] is [response.data]: an
    object of the interface, or a falsy value ([None]).  A truthy value of
    another shape (text that is not JSON, an object without the two
    lists) is left out: the type of the [recipe] cell excludes it and the
    card cannot be rendered from it. *)
Inductive outcome : Type :=
| Fulfilled (data : option RecipeResponse.t)
| Rejected (err : failure).

(** [generateRecipe] after its [await], lines 52-58: the rest of the
    [try], the [catch], the [finally]. *)
Definition generateRecipe_settled (o : outcome) : list effect :=
  match o with
  | Fulfilled data => [ setRecipe data; setLoading false ]
  | Rejected err =>
      [ setError (js "Failed to generate recipe. Please try again.");
        console_error (js "Error generating recipe:") err;
        setLoading false ]
  end.

(** How the promise of the [axios.post] of line 47 settles for an answer. *)
Definition axios_post_settles (a : answer RecipeResponse.t) : outcome :=
  match a with
  | network_error => Rejected NetworkError
  | timeout => Rejected Timeout
  | http status b =>
      if validateStatus status then Fulfilled (response_data b)
      else Rejected (BadStatus status)
  end.

(** [getScoreColor], lines 61-68. *)
Definition getScoreColor (score : jsstring) : jsstring :=
  if eqb score (js "green") then js "text-green-600 bg-green-100"
  else if eqb score (js "yellow") then js "text-yellow-600 bg-yellow-100"
  else if eqb score (js "red") then js "text-red-600 bg-red-100"
  else js "text-gray-600 bg-gray-100".

(** The three emoji of [getScoreIcon], as code units. *)
Definition check_mark : jsstring := [9989%N].             (* U+2705 *)
Definition warning_sign : jsstring := [9888%N; 65039%N].  (* U+26A0 U+FE0F *)
Definition question_mark : jsstring := [10067%N].         (* U+2753 *)

(** [getScoreIcon], lines 70-77. *)
Definition getScoreIcon (score : jsstring) : jsstring :=
  if eqb score (js "green") then check_mark
  else if eqb score (js "yellow") then warning_sign
  else if eqb score (js "red") then warning_sign
  else question_mark.

(** *** The view, as far as the claims look at it *)

(** [disabled] of the submit button, line 146. *)
Definition submit_disabled (st : state) : bool :=
  loading st || (List.length (ingredients st) =? 0)%nat.

(** The alert region, lines 162-166: [{error && <div>{error}</div>}]. *)
Definition errorAlert (st : state) : list vnode :=
  if truthy (error st)
  then [ h "div" None (js "p-3 bg-red-100 border border-red-400 text-red-700 rounded-md")
           [ text (error st) ] ]
  else [].

(** The recipe card, lines 172-244. *)
Definition recipeCard (recipe : RecipeResponse.t) : vnode :=
  h "div" None (js "bg-gray-50 rounded-lg p-6 space-y-6")
    [ h "div" None (js "text-center")
        [ h "h3" None (js "text-xl font-bold text-gray-900 mb-2")
            [ text (RecipeResponse.recipe_name recipe) ];
          h "div" None (js "flex justify-center space-x-4 text-sm text-gray-600")
            [ h "span" None (js "flex items-center")
                [ h "Clock" None (js "h-4 w-4 mr-1") [];
                  text (RecipeResponse.prep_time recipe) ];
              h "span" None (js "flex items-center")
                [ h "Zap" None (js "h-4 w-4 mr-1") [];
                  number (RecipeResponse.calories recipe); text (js " cal") ];
              h "span" None (js "px-2 py-1 bg-gray-200 rounded-full")
                [ text (RecipeResponse.difficulty recipe) ] ] ];
      h "div" None (js "grid grid-cols-2 gap-4")
        [ h "div" None
            (js "p-3 rounded-lg " ++ getScoreColor (RecipeResponse.eco_score recipe))
            [ h "div" None (js "flex items-center justify-between")
                [ h "span" None (js "font-medium") [ text (js "Eco Score") ];
                  h "span" None (js "text-lg")
                    [ text (getScoreIcon (RecipeResponse.eco_score recipe)) ] ] ];
          h "div" None
            (js "p-3 rounded-lg " ++ getScoreColor (RecipeResponse.health_score recipe))
            [ h "div" None (js "flex items-center justify-between")
                [ h "span" None (js "font-medium") [ text (js "Health Score") ];
                  h "span" None (js "text-lg")
                    [ text (getScoreIcon (RecipeResponse.health_score recipe)) ] ] ] ];
      h "div" None (js "bg-green-50 border border-green-200 rounded-lg p-4")
        [ h "div" None (js "flex items-start")
            [ h "Leaf" None (js "h-5 w-5 text-green-600 mr-2 mt-0.5") [];
              h "div" None (js "")
                [ h "h4" None (js "font-medium text-green-800 mb-1") [ text (js "Eco Tip") ];
                  h "p" None (js "text-green-700 text-sm")
                    [ text (RecipeResponse.eco_tip recipe) ] ] ] ];
      h "div" None (js "")
        [ h "h4" None (js "font-medium text-gray-900 mb-3") [ text (js "Ingredients") ];
          h "ul" None (js "space-y-1")
            (Array_map
               (fun ingredient index =>
                  h "li" (Some index) (js "flex items-center text-sm text-gray-700")
                    [ h "span" None (js "w-2 h-2 bg-green-500 rounded-full mr-3") [];
                      text ingredient ])
               (RecipeResponse.ingredients recipe)) ];
      h "div" None (js "")
        [ h "h4" None (js "font-medium text-gray-900 mb-3") [ text (js "Instructions") ];
          h "ol" None (js "space-y-2")
            (Array_map
               (fun instruction index =>
                  h "li" (Some index) (js "flex items-start text-sm text-gray-700")
                    [ h "span" None
                        (js "flex-shrink-0 w-6 h-6 bg-green-100 text-green-600 rounded-full flex items-center justify-center text-xs font-medium mr-3 mt-0.5")
                        [ number (Z.of_nat index + 1) ];
                      text instruction ])
               (RecipeResponse.instructions recipe)) ] ].

(** The display section, lines 170-253: the card, or the placeholder. *)
Definition recipeDisplay (st : state) : vnode :=
  match recipe st with
  | Some r => recipeCard r
  | None =>
      h "div" None (js "bg-gray-50 rounded-lg p-6 text-center")
        [ h "ChefHat" None (js "h-12 w-12 text-gray-400 mx-auto mb-4") [];
          h "p" None (js "text-gray-500")
            [ text (if loading st then js "Generating your recipe..."
                    else js "Your generated recipe will appear here") ] ]
  end.

(** The status the view shows: the alert region is rendered exactly when
    [error] is truthy, the progress texts when [loading], the card when
    [recipe] is set, the prompt otherwise. *)
Definition status_of (st : state) : status :=
  if truthy (error st) then Error
  else if loading st then Loading
  else match recipe st with Some _ => Success | None => Idle end.

(** *** The component in its environment *)

(** The rendered component and the number of requests in flight. *)
Record world : Type := { panel : state; pending : nat }.

Definition start : world := {| panel := initial; pending := 0 |}.

(** What can happen to a mounted component. *)
Inductive event : Type :=
| TypeIngredient (v : jsstring)   (* onChange, line 99 *)
| TypeDietary (v : jsstring)      (* onChange, line 138 *)
| AddIngredient                   (* onClick / Enter, lines 100, 105 *)
| RemoveIngredient (index : Z)    (* onClick, line 121 *)
| GenerateRecipe                  (* onClick, line 145 *)
| Settle (o : outcome).           (* the awaited promise settles *)

(** The handler runs; a promise can settle only while one is pending. *)
Definition fire (w : world) (e : event) : option world :=
  match e with
  | TypeIngredient v =>
      Some {| panel := run (panel w) [setNewIngredient v]; pending := pending w |}
  | TypeDietary v =>
      Some {| panel := run (panel w) [setDietaryPreferences v]; pending := pending w |}
  | AddIngredient =>
      Some {| panel := run (panel w) (addIngredient (panel w)); pending := pending w |}
  | RemoveIngredient index =>
      Some {| panel := run (panel w) (removeIngredient (panel w) index);
              pending := pending w |}
  | GenerateRecipe =>
      Some {| panel := run (panel w) (generateRecipe (panel w));
              pending := pending w + List.length (posts (generateRecipe (panel w))) |}
  | Settle o =>
      match pending w with
      | O => None
      | S n => Some {| panel := run (panel w) (generateRecipe_settled o); pending := n |}
      end
  end.

(** Which events the rendered controls let through: the submit button is
    [disabled] (line 146), and a remove button exists per listed item only
    (lines 114-127). *)
Definition enabled (w : world) (e : event) : bool :=
  match e with
  | GenerateRecipe => negb (submit_disabled (panel w))
  | RemoveIngredient index =>
      (0 <=? index)%Z && (index <? Z.of_nat (List.length (ingredients (panel w))))%Z
  | _ => true
  end.

Fixpoint fire_all (w : world) (es : list event) : option world :=
  match es with
  | [] => Some w
  | e :: es' => match fire w e with Some w' => fire_all w' es' | None => None end
  end.

(** The same, through the controls as rendered. *)
Fixpoint ui_fire_all (w : world) (es : list event) : option world :=
  match es with
  | [] => Some w
  | e :: es' =>
      if enabled w e
      then match fire w e with Some w' => ui_fire_all w' es' | None => None end
      else None
  end.

(** States reached by calling the handlers in any order. *)
Inductive reachable : world -> Prop :=
| reachable_start : reachable start
| reachable_fire w e w' : reachable w -> fire w e = Some w' -> reachable w'.

(** States reached through the controls as rendered. *)
Inductive ui_reachable : world -> Prop :=
| ui_start : ui_reachable start
| ui_fire w e w' :
    ui_reachable w -> enabled w e = true -> fire w e = Some w' -> ui_reachable w'.

(** Events of the item collector and the text fields. *)
Definition is_edit (e : event) : bool :=
  match e with
  | TypeIngredient _ | TypeDietary _ | AddIngredient | RemoveIngredient _ => true
  | GenerateRecipe | Settle _ => false
  end.

(** *** The operations as a user performs them *)

(** Type [raw] into the ingredient field, then press the add button. *)
Definition add (raw : jsstring) (st : state) : state :=
  let typed := run st [setNewIngredient raw] in
  run typed (addIngredient typed).

(** Press the remove button of position [index]. *)
Definition remove (index : Z) (st : state) : state :=
  run st (removeIngredient st index).

(** Exactly one of [recipe] and [error] is populated. *)
Definition exactly_one_populated (st : state) : bool :=
  xorb (match recipe st with Some _ => true | None => false end)
       (truthy (error st)).

(** While a request is in flight the display is cleared; otherwise no
    request is in flight and result and error are not both shown. *)
Definition consistent (w : world) : Prop :=
  if loading (panel w)
  then pending w = 1 /\ error (panel w) = [] /\ recipe (panel w) = None
  else pending w = 0 /\ (error (panel w) = [] \/ recipe (panel w) = None).

(** The response of the test scenario. *)
Definition veggie_stir_fry : RecipeResponse.t :=
  {| RecipeResponse.recipe_name := js "Veggie Stir Fry";
     RecipeResponse.ingredients := [js "carrot"; js "broccoli"];
     RecipeResponse.instructions := [js "Chop"; js "Cook"];
     RecipeResponse.calories := 320;
     RecipeResponse.eco_tip := js "Use scraps for stock";
     RecipeResponse.eco_score := js "green";
     RecipeResponse.health_score := js "yellow";
     RecipeResponse.prep_time := js "20 min";
     RecipeResponse.difficulty := js "Easy" |}.

(** *** More of the component *)

(** Adding several strings, one after the other. *)
Definition add_all (raws : list jsstring) (st : state) : state :=
  fold_left (fun s raw => add raw s) raws st.

(** The ingredient chips, lines 113-128: per listed ingredient its [key],
    its label and the event its button fires,
    [onClick={() => removeIngredient(index)}]. *)
Definition ingredientChips (st : state) : list (nat * jsstring * event) :=
  Array_map
    (fun ingredient index => (index, ingredient, RemoveIngredient (Z.of_nat index)))
    (ingredients st).

End RecipeGenerator.

(* ================================================================= *)
(** ** MenuAnalyzer                                                   *)
(* ================================================================= *)

Module MenuAnalysisResponse.

Record item_analysis : Type := {
  item : jsstring;
  eco_rating : jsstring;
  suggestion : jsstring
}.

Record t : Type := {
  restaurant_name : jsstring;
  eco_analysis : jsstring;
  recommendations : list jsstring;
  overall_eco_score : jsstring;
  menu_items_analysis : list item_analysis
}.

End MenuAnalysisResponse.

Module MenuAnalyzer.

(** The six [useState] cells of the component. *)
Record state : Type := {
  menuItems : list jsstring;
  newMenuItem : jsstring;
  restaurantName : jsstring;
  analysis : option MenuAnalysisResponse.t;
  loading : bool;
  error : jsstring
}.

Definition initial : state :=
  {| menuItems := []; newMenuItem := []; restaurantName := [];
     analysis := None; loading := false; error := [] |}.

Inductive effect : Type :=
| setMenuItems (v : list jsstring)
| setNewMenuItem (v : jsstring)
| setRestaurantName (v : jsstring)
| setAnalysis (v : option MenuAnalysisResponse.t)
| setLoading (v : bool)
| setError (v : jsstring)
| axios_post (url : jsstring) (body : json)
| console_error (label : jsstring) (err : failure).

Definition commit (st : state) (e : effect) : state :=
  match e with
  | setMenuItems v =>
      {| menuItems := v; newMenuItem := newMenuItem st;
         restaurantName := restaurantName st; analysis := analysis st;
         loading := loading st; error := error st |}
  | setNewMenuItem v =>
      {| menuItems := menuItems st; newMenuItem := v;
         restaurantName := restaurantName st; analysis := analysis st;
         loading := loading st; error := error st |}
  | setRestaurantName v =>
      {| menuItems := menuItems st; newMenuItem := newMenuItem st;
         restaurantName := v; analysis := analysis st;
         loading := loading st; error := error st |}
  | setAnalysis v =>
      {| menuItems := menuItems st; newMenuItem := newMenuItem st;
         restaurantName := restaurantName st; analysis := v;
         loading := loading st; error := error st |}
  | setLoading v =>
      {| menuItems := menuItems st; newMenuItem := newMenuItem st;
         restaurantName := restaurantName st; analysis := analysis st;
         loading := v; error := error st |}
  | setError v =>
      {| menuItems := menuItems st; newMenuItem := newMenuItem st;
         restaurantName := restaurantName st; analysis := analysis st;
         loading := loading st; error := v |}
  | axios_post _ _ => st
  | console_error _ _ => st
  end.

Definition run (st : state) (effs : list effect) : state :=
  fold_left commit effs st.

Fixpoint posts (effs : list effect) : list (jsstring * json) :=
  match effs with
  | [] => []
  | axios_post url body :: rest => (url, body) :: posts rest
  | _ :: rest => posts rest
  end.

(** [addMenuItem], lines 25-30. *)
Definition addMenuItem (st : state) : list effect :=
  if truthy (trim (newMenuItem st))
     && negb (Array_includes (menuItems st) (trim (newMenuItem st)))
  then [ setMenuItems (menuItems st ++ [trim (newMenuItem st)]);
         setNewMenuItem (js "") ]
  else [].

(** [removeMenuItem], lines 32-34. *)
Definition removeMenuItem (st : state) (index : Z) : list effect :=
  [ setMenuItems (Array_filter (fun _ i => neq_index i index) (menuItems st)) ].

(** [analyzeMenu] up to its [await], lines 36-50. *)
Definition analyzeMenu (st : state) : list effect :=
  if (List.length (menuItems st) =? 0)%nat
  then [ setError (js "Please add at least one menu item") ]
  else [ setLoading true;
         setError (js "");
         setAnalysis None;
         axios_post (js "http://localhost:8001/restaurant-analysis")
           (JObject [ ("menu_items"%string, JArray (List.map JString (menuItems st)));
                      ("restaurant_name"%string,
                       or_else JString (restaurantName st) (JString (js "Restaurant"))) ]) ].

(** What the awaited promise settles to; [data] is [response.data], read
    as in [RecipeGenerator]. *)
Inductive outcome : Type :=
| Fulfilled (data : option MenuAnalysisResponse.t)
| Rejected (err : failure).

(** [analyzeMenu] after its [await], lines 52-58. *)
Definition analyzeMenu_settled (o : outcome) : list effect :=
  match o with
  | Fulfilled data => [ setAnalysis data; setLoading false ]
  | Rejected err =>
      [ setError (js "Failed to analyze menu. Please try again.");
        console_error (js "Error analyzing menu:") err;
        setLoading false ]
  end.

(** How the promise of the [axios.post] of line 47 settles for an answer. *)
Definition axios_post_settles (a : answer MenuAnalysisResponse.t) : outcome :=
  match a with
  | network_error => Rejected NetworkError
  | timeout => Rejected Timeout
  | http status b =>
      if validateStatus status then Fulfilled (response_data b)
      else Rejected (BadStatus status)
  end.

(** [getScoreColor], lines 61-68. *)
Definition getScoreColor (score : jsstring) : jsstring :=
  if eqb score (js "green") then js "text-green-600 bg-green-100"
  else if eqb score (js "yellow") then js "text-yellow-600 bg-yellow-100"
  else if eqb score (js "red") then js "text-red-600 bg-red-100"
  else js "text-gray-600 bg-gray-100".

(** [getScoreIcon], lines 70-77: lucide-react icon elements. *)
Definition getScoreIcon (score : jsstring) : vnode :=
  if eqb score (js "green") then h "CheckCircle" None (js "h-5 w-5") []
  else if eqb score (js "yellow") then h "AlertCircle" None (js "h-5 w-5") []
  else if eqb score (js "red") then h "XCircle" None (js "h-5 w-5") []
  else h "AlertCircle" None (js "h-5 w-5") [].

(** [disabled] of the submit button, line 146. *)
Definition submit_disabled (st : state) : bool :=
  loading st || (List.length (menuItems st) =? 0)%nat.

(** The alert region, lines 162-166. *)
Definition errorAlert (st : state) : list vnode :=
  if truthy (error st)
  then [ h "div" None (js "p-3 bg-red-100 border border-red-400 text-red-700 rounded-md")
           [ text (error st) ] ]
  else [].

(** The status the view shows, read as in [RecipeGenerator]. *)
Definition status_of (st : state) : status :=
  if truthy (error st) then Error
  else if loading st then Loading
  else match analysis st with Some _ => Success | None => Idle end.

Record world : Type := { panel : state; pending : nat }.

Definition start : world := {| panel := initial; pending := 0 |}.

Inductive event : Type :=
| TypeRestaurant (v : jsstring)   (* onChange, line 98 *)
| TypeMenuItem (v : jsstring)     (* onChange, line 112 *)
| AddMenuItem                     (* onClick / Enter, lines 113, 118 *)
| RemoveMenuItem (index : Z)      (* onClick, line 134 *)
| AnalyzeMenu                     (* onClick, line 145 *)
| Settle (o : outcome).           (* the awaited promise settles *)

Definition fire (w : world) (e : event) : option world :=
  match e with
  | TypeRestaurant v =>
      Some {| panel := run (panel w) [setRestaurantName v]; pending := pending w |}
  | TypeMenuItem v =>
      Some {| panel := run (panel w) [setNewMenuItem v]; pending := pending w |}
  | AddMenuItem =>
      Some {| panel := run (panel w) (addMenuItem (panel w)); pending := pending w |}
  | RemoveMenuItem index =>
      Some {| panel := run (panel w) (removeMenuItem (panel w) index);
              pending := pending w |}
  | AnalyzeMenu =>
      Some {| panel := run (panel w) (analyzeMenu (panel w));
              pending := pending w + List.length (posts (analyzeMenu (panel w))) |}
  | Settle o =>
      match pending w with
      | O => None
      | S n => Some {| panel := run (panel w) (analyzeMenu_settled o); pending := n |}
      end
  end.

Definition enabled (w : world) (e : event) : bool :=
  match e with
  | AnalyzeMenu => negb (submit_disabled (panel w))
  | RemoveMenuItem index =>
      (0 <=? index)%Z && (index <? Z.of_nat (List.length (menuItems (panel w))))%Z
  | _ => true
  end.

Fixpoint fire_all (w : world) (es : list event) : option world :=
  match es with
  | [] => Some w
  | e :: es' => match fire w e with Some w' => fire_all w' es' | None => None end
  end.

Fixpoint ui_fire_all (w : world) (es : list event) : option world :=
  match es with
  | [] => Some w
  | e :: es' =>
      if enabled w e
      then match fire w e with Some w' => ui_fire_all w' es' | None => None end
      else None
  end.

Inductive reachable : world -> Prop :=
| reachable_start : reachable start
| reachable_fire w e w' : reachable w -> fire w e = Some w' -> reachable w'.

Inductive ui_reachable : world -> Prop :=
| ui_start : ui_reachable start
| ui_fire w e w' :
    ui_reachable w -> enabled w e = true -> fire w e = Some w' -> ui_reachable w'.

Definition is_edit (e : event) : bool :=
  match e with
  | TypeRestaurant _ | TypeMenuItem _ | AddMenuItem | RemoveMenuItem _ => true
  | AnalyzeMenu | Settle _ => false
  end.

(** Type [raw] into the menu item field, then press the add button. *)
Definition add (raw : jsstring) (st : state) : state :=
  let typed := run st [setNewMenuItem raw] in
  run typed (addMenuItem typed).

(** Press the remove button of position [index]. *)
Definition remove (index : Z) (st : state) : state :=
  run st (removeMenuItem st index).

(** Exactly one of [analysis] and [error] is populated. *)
Definition exactly_one_populated (st : state) : bool :=
  xorb (match analysis st with Some _ => true | None => false end)
       (truthy (error st)).

(** While a request is in flight the display is cleared; otherwise no
    request is in flight and result and error are not both shown. *)
Definition consistent (w : world) : Prop :=
  if loading (panel w)
  then pending w = 1 /\ error (panel w) = [] /\ analysis (panel w) = None
  else pending w = 0 /\ (error (panel w) = [] \/ analysis (panel w) = None).

(** *** More of the component *)

(** Adding several strings, one after the other. *)
Definition add_all (raws : list jsstring) (st : state) : state :=
  fold_left (fun s raw => add raw s) raws st.

(** The menu item chips, lines 126-141: per listed item its [key], its
    label and the event its button fires. *)
Definition menuItemChips (st : state) : list (nat * jsstring * event) :=
  Array_map
    (fun item index => (index, item, RemoveMenuItem (Z.of_nat index)))
    (menuItems st).

(** The analysis card, lines 172-220. *)
Definition analysisCard (analysis : MenuAnalysisResponse.t) : vnode :=
  h "div" None (js "space-y-6")
    [ h "div" None (js "bg-gray-50 rounded-lg p-6")
        [ h "div" None (js "flex items-center justify-between mb-4")
            [ h "h3" None (js "text-lg font-bold text-gray-900")
                [ text (MenuAnalysisResponse.restaurant_name analysis) ];
              h "div" None
                (js "px-3 py-1 rounded-full "
                 ++ getScoreColor (MenuAnalysisResponse.overall_eco_score analysis))
                [ h "div" None (js "flex items-center space-x-2")
                    [ getScoreIcon (MenuAnalysisResponse.overall_eco_score analysis);
                      h "span" None (js "font-medium") [ text (js "Overall Eco Score") ] ] ] ];
          h "p" None (js "text-gray-700")
            [ text (MenuAnalysisResponse.eco_analysis analysis) ] ];
      h "div" None (js "bg-green-50 border border-green-200 rounded-lg p-6")
        [ h "h4" None (js "font-bold text-green-800 mb-3 flex items-center")
            [ h "Leaf" None (js "h-5 w-5 mr-2") [];
              text (js "Eco-Friendly Recommendations") ];
          h "ul" None (js "space-y-2")
            (Array_map
               (fun recommendation index =>
                  h "li" (Some index) (js "flex items-start text-green-700")
                    [ h "span" None
                        (js "w-2 h-2 bg-green-500 rounded-full mr-3 mt-2 flex-shrink-0") [];
                      text recommendation ])
               (MenuAnalysisResponse.recommendations analysis)) ];
      h "div" None (js "bg-white border border-gray-200 rounded-lg p-6")
        [ h "h4" None (js "font-bold text-gray-900 mb-4") [ text (js "Menu Items Analysis") ];
          h "div" None (js "space-y-4")
            (Array_map
               (fun item index =>
                  h "div" (Some index) (js "border-l-4 border-gray-200 pl-4")
                    [ h "div" None (js "flex items-center justify-between mb-2")
                        [ h "h5" None (js "font-medium text-gray-900")
                            [ text (MenuAnalysisResponse.item item) ];
                          h "div" None
                            (js "px-2 py-1 rounded-full text-xs "
                             ++ getScoreColor (MenuAnalysisResponse.eco_rating item))
                            [ getScoreIcon (MenuAnalysisResponse.eco_rating item) ] ];
                      h "p" None (js "text-sm text-gray-600")
                        [ text (MenuAnalysisResponse.suggestion item) ] ])
               (MenuAnalysisResponse.menu_items_analysis analysis)) ] ].

(** The display section, lines 170-229: the card, or the placeholder. *)
Definition analysisDisplay (st : state) : vnode :=
  match analysis st with
  | Some a => analysisCard a
  | None =>
      h "div" None (js "bg-gray-50 rounded-lg p-6 text-center")
        [ h "Building2" None (js "h-12 w-12 text-gray-400 mx-auto mb-4") [];
          h "p" None (js "text-gray-500")
            [ text (if loading st then js "Analyzing your menu..."
                    else js "Your menu analysis will appear here") ] ]
  end.

End MenuAnalyzer.

(* ================================================================= *)
(** ** App: the two tabs                                              *)
(* ================================================================= *)

Module App.

(** ['recipe' | 'menu'], the type of [activeTab]. *)
Inductive tab : Type := recipe | menu.

Definition tab_eqb (a b : tab) : bool :=
  match a, b with
  | recipe, recipe | menu, menu => true
  | _, _ => false
  end.

(** [className] of a tab button, lines 281-285 and 292-296. *)
Definition tabClass (active : bool) : jsstring :=
  js "py-2 px-1 border-b-2 font-medium text-sm flex items-center space-x-2 "
  ++ (if active
      then js "border-green-500 text-green-600"
      else js "border-transparent text-gray-500 hover:text-gray-700 hover:border-gray-300").

(** The tab navigation, lines 278-301: per button the tab its [onClick]
    sets and the element it renders. *)
Definition tabNavigation (activeTab : tab) : list (tab * vnode) :=
  [ (recipe,
     h "button" None (tabClass (tab_eqb activeTab recipe))
       [ h "ChefHat" None (js "h-4 w-4") [];
         h "span" None (js "") [ text (js "Recipe Generator") ] ]);
    (menu,
     h "button" None (tabClass (tab_eqb activeTab menu))
       [ h "Users" None (js "h-4 w-4") [];
         h "span" None (js "") [ text (js "Menu Analyzer") ] ]) ].

(** The tab content, lines 306-308:
    [activeTab === 'recipe' ? <RecipeGenerator /> : <MenuAnalyzer />]. *)
Definition tabContent (activeTab : tab) : vnode :=
  h "div" None (js "bg-white rounded-lg shadow-sm border border-gray-200")
    [ if tab_eqb activeTab recipe
      then h "RecipeGenerator" None (js "") []
      else h "MenuAnalyzer" None (js "") [] ].

End App.

(* ================================================================= *)
(** ** Vocabulary of the properties                                   *)
(* ================================================================= *)

(** How many times [x] occurs in a collection. *)
Definition occurrences (x : jsstring) (l : list jsstring) : nat :=
  List.length (List.filter (eqb x) l).

(** A field of a request body is [null] or missing. *)
Definition null_or_absent (field : option json) : bool :=
  match field with
  | None | Some JNull => true
  | Some _ => false
  end.

(** The request body as the specification describes it, the
    RequestPayload: the items, and the modifier, which is null or absent
    when blank.  [items_key] and [modifier_key] are the names the two
    fields go by on the wire. *)
Definition is_RequestPayload (items_key modifier_key : string)
    (items : list jsstring) (modifier : jsstring) (body : json) : Prop :=
  get items_key body = Some (JArray (List.map JString items))
  /\ match modifier with
     | [] => null_or_absent (get modifier_key body) = true
     | _ :: _ => get modifier_key body = Some (JString modifier)
     end.

(** The three scores the look-ups name. *)
Definition recognised (score : jsstring) : bool :=
  eqb score (js "green") || eqb score (js "yellow") || eqb score (js "red").

(** A look-up shows unmatched scores with a presentation of their own: one
    that no recognised score is shown with.  This is what an icon (or
    colour) for "unknown" has to satisfy. *)
Definition fallback_of_its_own (P : Type) (present : jsstring -> P) : Prop :=
  forall s t, recognised s = false -> recognised t = true -> present s <> present t.

(** The four cases of the [switch] in the score look-ups. *)
Inductive score_class : Type := IsGreen | IsYellow | IsRed | IsOther.

Definition classify (score : jsstring) : score_class :=
  if eqb score (js "green") then IsGreen
  else if eqb score (js "yellow") then IsYellow
  else if eqb score (js "red") then IsRed
  else IsOther.

(** An item as the collector keeps it: not empty, no white space at
    either end. *)
Definition trimmed (x : jsstring) : Prop := x <> [] /\ trim x = x.

(* ================================================================= *)
(** ** Facts about the JavaScript helpers                             *)
(* ================================================================= *)

Section JSFacts.

Lemma eqb_eq (s t : jsstring) : eqb s t = true <-> s = t.
Proof.
  revert t; induction s as [|c s IH]; intros [|d t]; simpl; split;
    try congruence; try reflexivity.
  - intros H. apply andb_true_iff in H as [Hc Hs].
    apply N.eqb_eq in Hc. apply IH in Hs. congruence.
  - intros H. injection H as -> ->. rewrite N.eqb_refl. simpl. now apply IH.
Qed.

Lemma eqb_refl (s : jsstring) : eqb s s = true.
Proof. now apply eqb_eq. Qed.

Lemma eqb_neq (s t : jsstring) : eqb s t = false <-> s <> t.
Proof.
  split.
  - intros H E. apply eqb_eq in E. congruence.
  - intros H. destruct (eqb s t) eqn:E; [|reflexivity].
    apply eqb_eq in E. contradiction.
Qed.

Lemma truthy_true (s : jsstring) : truthy s = true <-> s <> [].
Proof. destruct s; simpl; split; congruence. Qed.

Lemma truthy_false (s : jsstring) : truthy s = false <-> s = [].
Proof. destruct s; simpl; split; congruence. Qed.

Lemma includes_In (l : list jsstring) (x : jsstring) :
  Array_includes l x = true <-> In x l.
Proof.
  unfold Array_includes. rewrite existsb_exists. split.
  - intros (y & Hy & E). apply eqb_eq in E. now subst.
  - intros H. exists x. split; [assumption | apply eqb_refl].
Qed.

Lemma includes_not_In (l : list jsstring) (x : jsstring) :
  Array_includes l x = false <-> ~ In x l.
Proof.
  rewrite <- includes_In. destruct (Array_includes l x); split; congruence.
Qed.

(** Trimming leaves no white space at either end, and a string of white
    space only trims to the empty string. *)
Lemma trimStart_head (s : jsstring) :
  match trimStart s with [] => True | c :: _ => isWhiteSpace c = false end.
Proof.
  induction s as [|c s IH]; simpl; [exact I|].
  destruct (isWhiteSpace c) eqn:E; [exact IH | exact E].
Qed.

Lemma trimStart_blank (s : jsstring) :
  forallb isWhiteSpace s = true -> trimStart s = [].
Proof.
  induction s as [|c s IH]; simpl; [reflexivity|].
  intros H. apply andb_true_iff in H as [Hc Hs]. rewrite Hc. now apply IH.
Qed.

Lemma trimStart_suffix (s : jsstring) :
  exists p, s = p ++ trimStart s /\ forallb isWhiteSpace p = true.
Proof.
  induction s as [|c s (p & E & Hp)]; simpl.
  - now exists [].
  - destruct (isWhiteSpace c) eqn:Hc.
    + exists (c :: p). simpl. rewrite Hc, Hp. split; [congruence | reflexivity].
    + now exists [].
Qed.

Lemma trim_blank (s : jsstring) :
  forallb isWhiteSpace s = true -> trim s = [].
Proof.
  intros H. unfold trim, trimEnd. now rewrite (trimStart_blank s H).
Qed.

Lemma trim_last (s : jsstring) :
  match rev (trim s) with [] => True | c :: _ => isWhiteSpace c = false end.
Proof.
  unfold trim, trimEnd. rewrite rev_involutive. apply trimStart_head.
Qed.

Lemma trim_first (s : jsstring) :
  match trim s with [] => True | c :: _ => isWhiteSpace c = false end.
Proof.
  unfold trim, trimEnd.
  pose proof (trimStart_head s) as Hh.
  destruct (trimStart_suffix (rev (trimStart s))) as (p & E & _).
  apply (f_equal (@rev N)) in E. rewrite rev_involutive, rev_app_distr in E.
  destruct (rev (trimStart (rev (trimStart s)))) as [|c t]; [exact I|].
  rewrite E in Hh. exact Hh.
Qed.

End JSFacts.

Section ArrayFacts.

Variable A : Type.

Lemma filter_from_outside (index : Z) (l : list A) (i : nat) :
  (index < Z.of_nat i \/ Z.of_nat (i + List.length l) <= index)%Z ->
  filter_from (fun (_ : A) k => neq_index k index) i l = l.
Proof.
  revert i; induction l as [|x l IH]; intros i H; simpl; [reflexivity|].
  unfold neq_index at 1.
  destruct (Z.eqb_spec (Z.of_nat i) index) as [E|_]; simpl in *; [lia|].
  f_equal. apply IH. lia.
Qed.

Lemma filter_from_inside (n : nat) (l : list A) (i : nat) :
  n < List.length l ->
  filter_from (fun (_ : A) k => neq_index k (Z.of_nat (i + n))) i l
  = firstn n l ++ skipn (S n) l.
Proof.
  revert i n; induction l as [|x l IH]; intros i n H; simpl in H; [lia|].
  simpl filter_from. unfold neq_index at 1.
  destruct n as [|n].
  - replace (i + 0) with i by lia. rewrite Z.eqb_refl. simpl.
    apply filter_from_outside. lia.
  - destruct (Z.eqb_spec (Z.of_nat i) (Z.of_nat (i + S n))) as [E|_]; [lia|].
    simpl. f_equal. replace (i + S n) with (S i + n) by lia.
    apply IH. lia.
Qed.

Lemma filter_from_In (f : A -> nat -> bool) (l : list A) (i : nat) (x : A) :
  In x (filter_from f i l) -> In x l.
Proof.
  revert i; induction l as [|y l IH]; intros i; simpl; [tauto|].
  destruct (f y i); simpl; intros H.
  - destruct H as [H|H]; [now left | right; eauto].
  - right; eauto.
Qed.

Lemma filter_from_NoDup (f : A -> nat -> bool) (l : list A) (i : nat) :
  NoDup l -> NoDup (filter_from f i l).
Proof.
  intros H; revert i; induction H as [|y l Hy Hl IH]; intros i; simpl.
  - constructor.
  - destruct (f y i); [|apply IH].
    constructor; [|apply IH].
    intros Hin. apply Hy. eapply filter_from_In; eassumption.
Qed.

Lemma map_from_length (B : Type) (f : A -> nat -> B) (l : list A) (i : nat) :
  List.length (map_from f i l) = List.length l.
Proof.
  revert i; induction l as [|x l IH]; intros i; simpl; [reflexivity|].
  now rewrite IH.
Qed.

End ArrayFacts.

Section Occurrences.

Lemma occurrences_app (x : jsstring) (l1 l2 : list jsstring) :
  occurrences x (l1 ++ l2) = occurrences x l1 + occurrences x l2.
Proof. unfold occurrences. now rewrite filter_app, length_app. Qed.

Lemma occurrences_absent (x : jsstring) (l : list jsstring) :
  ~ In x l -> occurrences x l = 0.
Proof.
  unfold occurrences. induction l as [|y l IH]; simpl; [reflexivity|].
  intros H. destruct (eqb x y) eqn:E.
  - apply eqb_eq in E. subst. tauto.
  - apply IH. tauto.
Qed.

Lemma occurrences_present (x : jsstring) (l : list jsstring) :
  In x l -> 1 <= occurrences x l.
Proof.
  unfold occurrences. induction l as [|y l IH]; simpl; [tauto|].
  intros [E|H].
  - subst. rewrite eqb_refl. simpl. lia.
  - destruct (eqb x y); simpl; auto with arith.
Qed.

Lemma occurrences_NoDup (x : jsstring) (l : list jsstring) :
  NoDup l -> In x l -> occurrences x l = 1.
Proof.
  induction 1 as [|y l Hy Hl IH]; simpl; [tauto|].
  intros [E|Hin]; unfold occurrences; simpl.
  - subst. rewrite eqb_refl. simpl. f_equal.
    now apply occurrences_absent.
  - destruct (eqb x y) eqn:E.
    + apply eqb_eq in E. subst. contradiction.
    + now apply IH.
Qed.

Lemma NoDup_snoc (x : jsstring) (l : list jsstring) :
  NoDup l -> ~ In x l -> NoDup (l ++ [x]).
Proof.
  intros Hl Hx. apply NoDup_app; [assumption | repeat constructor; simpl; tauto |].
  intros y Hy [<-|[]]. contradiction.
Qed.

End Occurrences.

(* ================================================================= *)
(** ** RecipeGenerator: the item collector                            *)
(* ================================================================= *)

Section RecipeCollector.

Import RecipeGenerator.

Lemma recipe_add_ingredients (raw : jsstring) (st : state) :
  ingredients (add raw st)
  = if truthy (trim raw) && negb (Array_includes (ingredients st) (trim raw))
    then ingredients st ++ [trim raw]
    else ingredients st.
Proof.
  unfold add, addIngredient; simpl.
  destruct (truthy (trim raw) && negb (Array_includes (ingredients st) (trim raw)));
    reflexivity.
Qed.

Lemma recipe_add_input (raw : jsstring) (st : state) :
  newIngredient (add raw st)
  = if truthy (trim raw) && negb (Array_includes (ingredients st) (trim raw))
    then []
    else raw.
Proof.
  unfold add, addIngredient; simpl.
  destruct (truthy (trim raw) && negb (Array_includes (ingredients st) (trim raw)));
    reflexivity.
Qed.

Lemma recipe_add_rest (raw : jsstring) (st : state) :
  dietaryPreferences (add raw st) = dietaryPreferences st
  /\ recipe (add raw st) = recipe st
  /\ loading (add raw st) = loading st
  /\ error (add raw st) = error st.
Proof.
  unfold add, addIngredient; simpl.
  destruct (truthy (trim raw) && negb (Array_includes (ingredients st) (trim raw)));
    simpl; auto.
Qed.

Lemma recipe_add_noop (raw : jsstring) (st : state) :
  trim raw = [] \/ In (trim raw) (ingredients st) ->
  ingredients (add raw st) = ingredients st.
Proof.
  intros H. rewrite recipe_add_ingredients.
  destruct H as [H|H].
  - rewrite H. reflexivity.
  - apply includes_In in H. rewrite H, andb_false_r. reflexivity.
Qed.

Lemma recipe_add_appends (raw : jsstring) (st : state) :
  trim raw <> [] -> ~ In (trim raw) (ingredients st) ->
  ingredients (add raw st) = ingredients st ++ [trim raw]
  /\ newIngredient (add raw st) = [].
Proof.
  intros Hx Hin. rewrite recipe_add_ingredients, recipe_add_input.
  apply truthy_true in Hx. apply includes_not_In in Hin.
  rewrite Hx, Hin. split; reflexivity.
Qed.

Lemma recipe_add_In (raw : jsstring) (st : state) :
  trim raw <> [] -> In (trim raw) (ingredients (add raw st)).
Proof.
  intros Hx. rewrite recipe_add_ingredients.
  apply truthy_true in Hx. rewrite Hx. simpl.
  destruct (Array_includes (ingredients st) (trim raw)) eqn:E; simpl.
  - now apply includes_In.
  - apply in_or_app. right. now left.
Qed.

Lemma recipe_add_again (raw raw' : jsstring) (st : state) :
  trim raw' = trim raw ->
  ingredients (add raw' (add raw st)) = ingredients (add raw st).
Proof.
  intros E. apply recipe_add_noop. rewrite E.
  destruct (trim raw) eqn:Hx; [now left | right].
  rewrite <- Hx. apply recipe_add_In. congruence.
Qed.

Lemma recipe_add_occurrences (raw : jsstring) (st : state) :
  trim raw <> [] -> occurrences (trim raw) (ingredients st) <= 1 ->
  occurrences (trim raw) (ingredients (add raw st)) = 1.
Proof.
  intros Hx Hocc. rewrite recipe_add_ingredients.
  apply truthy_true in Hx. rewrite Hx. simpl.
  destruct (Array_includes (ingredients st) (trim raw)) eqn:E; simpl.
  - apply includes_In in E. apply occurrences_present in E. lia.
  - apply includes_not_In in E. rewrite occurrences_app.
    rewrite (occurrences_absent _ _ E). unfold occurrences. simpl.
    now rewrite eqb_refl.
Qed.

Lemma recipe_add_NoDup (raw : jsstring) (st : state) :
  NoDup (ingredients st) -> NoDup (ingredients (add raw st)).
Proof.
  intros H. rewrite recipe_add_ingredients.
  destruct (truthy (trim raw)); simpl; [|assumption].
  destruct (Array_includes (ingredients st) (trim raw)) eqn:E; simpl; [assumption|].
  apply NoDup_snoc; [assumption|]. now apply includes_not_In.
Qed.

Lemma recipe_remove_ingredients (index : Z) (st : state) :
  ingredients (remove index st)
  = Array_filter (fun _ i => neq_index i index) (ingredients st).
Proof. reflexivity. Qed.

Lemma recipe_remove_rest (index : Z) (st : state) :
  newIngredient (remove index st) = newIngredient st
  /\ dietaryPreferences (remove index st) = dietaryPreferences st
  /\ recipe (remove index st) = recipe st
  /\ loading (remove index st) = loading st
  /\ error (remove index st) = error st.
Proof. repeat split. Qed.

Lemma recipe_remove_inside (index : Z) (st : state) :
  (0 <= index < Z.of_nat (List.length (ingredients st)))%Z ->
  ingredients (remove index st)
  = firstn (Z.to_nat index) (ingredients st)
    ++ skipn (S (Z.to_nat index)) (ingredients st).
Proof.
  intros H. rewrite recipe_remove_ingredients. unfold Array_filter.
  pose proof (filter_from_inside (ingredients st) 0 (n := Z.to_nat index)) as F.
  simpl in F. rewrite Z2Nat.id in F by lia. apply F. lia.
Qed.

Lemma recipe_remove_outside (index : Z) (st : state) :
  (index < 0 \/ Z.of_nat (List.length (ingredients st)) <= index)%Z ->
  remove index st = st.
Proof.
  intros H. unfold remove, removeIngredient, Array_filter. simpl.
  rewrite filter_from_outside by (simpl; lia). now destruct st.
Qed.

End RecipeCollector.

(* ================================================================= *)
(** ** RecipeGenerator: submitting                                    *)
(* ================================================================= *)

Section RecipeSubmit.

Import RecipeGenerator.

Lemma recipe_submit_empty (st : state) :
  ingredients st = [] ->
  generateRecipe st = [ setError (js "Please add at least one ingredient") ].
Proof. unfold generateRecipe. now intros ->. Qed.

Lemma recipe_submit_nonempty (st : state) :
  ingredients st <> [] ->
  generateRecipe st
  = [ setLoading true; setError []; setRecipe None;
      axios_post (js "http://localhost:8001" ++ js "/generate-recipe")
        (JObject [ ("ingredients"%string, JArray (List.map JString (ingredients st)));
                   ("dietary_preferences"%string,
                    or_else JString (dietaryPreferences st) JNull) ]) ].
Proof.
  unfold generateRecipe. destruct (ingredients st); [congruence | reflexivity].
Qed.

Lemma recipe_settled_no_post (o : outcome) : posts (generateRecipe_settled o) = [].
Proof. now destruct o. Qed.

(** Editing the collection or the text fields leaves the display cells
    and the requests in flight alone. *)
Lemma recipe_edit_keeps (w w' : world) (e : event) :
  is_edit e = true -> fire w e = Some w' ->
  recipe (panel w') = recipe (panel w)
  /\ loading (panel w') = loading (panel w)
  /\ error (panel w') = error (panel w)
  /\ pending w' = pending w.
Proof.
  destruct e; simpl; try discriminate; intros _ H; injection H as <-; simpl; auto.
  unfold addIngredient.
  destruct (truthy (trim (newIngredient (panel w)))
            && negb (Array_includes (ingredients (panel w)) (trim (newIngredient (panel w)))));
    simpl; auto.
Qed.

Lemma recipe_edits_keep (es : list event) :
  forallb is_edit es = true ->
  forall w, exists w',
    fire_all w es = Some w'
    /\ recipe (panel w') = recipe (panel w)
    /\ loading (panel w') = loading (panel w)
    /\ error (panel w') = error (panel w)
    /\ pending w' = pending w.
Proof.
  induction es as [|e es IH]; simpl; intros H w.
  - exists w. auto.
  - apply andb_true_iff in H as [He Hes].
    destruct (fire w e) as [w1|] eqn:F.
    + destruct (recipe_edit_keeps w e He F) as (R1 & L1 & E1 & P1).
      destruct (IH Hes w1) as (w' & F' & R & L & E & P).
      exists w'. rewrite F', R, L, E, P. auto.
    + destruct e; simpl in *; discriminate.
Qed.

Lemma recipe_fire_all_app (es1 es2 : list event) (w : world) :
  fire_all w (es1 ++ es2)
  = match fire_all w es1 with Some w1 => fire_all w1 es2 | None => None end.
Proof.
  revert w; induction es1 as [|e es1 IH]; intros w; simpl; [reflexivity|].
  destruct (fire w e); [apply IH | reflexivity].
Qed.

Lemma recipe_consistent_start : consistent start.
Proof. unfold consistent; simpl. auto. Qed.

Lemma recipe_consistent_step (w w' : world) (e : event) :
  consistent w -> enabled w e = true -> fire w e = Some w' -> consistent w'.
Proof.
  intros C En F. destruct (is_edit e) eqn:Ed.
  - destruct (recipe_edit_keeps w e Ed F) as (R & L & E & P).
    unfold consistent in *. now rewrite R, L, E, P.
  - destruct e; try discriminate; simpl in En, F.
    + (* the submit button, enabled *)
      unfold submit_disabled in En. apply negb_true_iff, orb_false_iff in En as [HL HI].
      injection F as <-. unfold consistent in *. rewrite HL in C. destruct C as [P _].
      unfold generateRecipe. rewrite HI. simpl. rewrite P. auto.
    + (* a promise settles *)
      unfold consistent in C.
      destruct (pending w) as [|n] eqn:P; [discriminate|]. injection F as <-.
      destruct (loading (panel w)); destruct C as [Pn C]; [|discriminate].
      destruct C as [E R]. injection Pn as ->.
      unfold consistent. destruct o; simpl; auto.
Qed.

Lemma recipe_ui_consistent (w : world) : ui_reachable w -> consistent w.
Proof.
  induction 1 as [|w e w' _ IH En F].
  - apply recipe_consistent_start.
  - eapply recipe_consistent_step; eassumption.
Qed.

Lemma recipe_ui_is_reachable (w : world) : ui_reachable w -> reachable w.
Proof.
  induction 1 as [|w e w' _ IH _ F]; [constructor | econstructor; eassumption].
Qed.

Lemma recipe_fire_all_reachable (es : list event) (w w' : world) :
  reachable w -> fire_all w es = Some w' -> reachable w'.
Proof.
  revert w; induction es as [|e es IH]; simpl; intros w R F.
  - now injection F as <-.
  - destruct (fire w e) as [w1|] eqn:F1; [|discriminate].
    apply (IH w1); [econstructor; eassumption | assumption].
Qed.

(** The collection never holds an item twice. *)
Lemma recipe_reachable_NoDup (w : world) :
  reachable w -> NoDup (ingredients (panel w)).
Proof.
  induction 1 as [|w e w' _ IH F].
  - constructor.
  - destruct e; simpl in F.
    + now injection F as <-.
    + now injection F as <-.
    + injection F as <-. unfold addIngredient.
      destruct (truthy (trim (newIngredient (panel w)))) eqn:T; simpl; [|assumption].
      destruct (Array_includes (ingredients (panel w)) (trim (newIngredient (panel w)))) eqn:E;
        simpl; [assumption|].
      apply NoDup_snoc; [assumption | now apply includes_not_In].
    + injection F as <-. simpl. now apply filter_from_NoDup.
    + injection F as <-. unfold generateRecipe.
      destruct (List.length (ingredients (panel w)) =? 0); simpl; assumption.
    + destruct (pending w); [discriminate|]. injection F as <-.
      destruct o; simpl; assumption.
Qed.

Lemma recipe_ui_fire_all_reachable (es : list event) (w w' : world) :
  ui_reachable w -> ui_fire_all w es = Some w' -> ui_reachable w'.
Proof.
  revert w; induction es as [|e es IH]; simpl; intros w R F.
  - now injection F as <-.
  - destruct (enabled w e) eqn:En; [|discriminate].
    destruct (fire w e) as [w1|] eqn:F1; [|discriminate].
    apply (IH w1); [econstructor; eassumption | assumption].
Qed.

End RecipeSubmit.

(* ================================================================= *)
(** ** MenuAnalyzer: the item collector                               *)
(* ================================================================= *)

Section MenuCollector.

Import MenuAnalyzer.

Lemma menu_add_items (raw : jsstring) (st : state) :
  menuItems (add raw st)
  = if truthy (trim raw) && negb (Array_includes (menuItems st) (trim raw))
    then menuItems st ++ [trim raw]
    else menuItems st.
Proof.
  unfold add, addMenuItem; simpl.
  destruct (truthy (trim raw) && negb (Array_includes (menuItems st) (trim raw)));
    reflexivity.
Qed.

Lemma menu_add_input (raw : jsstring) (st : state) :
  newMenuItem (add raw st)
  = if truthy (trim raw) && negb (Array_includes (menuItems st) (trim raw))
    then []
    else raw.
Proof.
  unfold add, addMenuItem; simpl.
  destruct (truthy (trim raw) && negb (Array_includes (menuItems st) (trim raw)));
    reflexivity.
Qed.

Lemma menu_add_rest (raw : jsstring) (st : state) :
  restaurantName (add raw st) = restaurantName st
  /\ analysis (add raw st) = analysis st
  /\ loading (add raw st) = loading st
  /\ error (add raw st) = error st.
Proof.
  unfold add, addMenuItem; simpl.
  destruct (truthy (trim raw) && negb (Array_includes (menuItems st) (trim raw)));
    simpl; auto.
Qed.

Lemma menu_add_noop (raw : jsstring) (st : state) :
  trim raw = [] \/ In (trim raw) (menuItems st) ->
  menuItems (add raw st) = menuItems st.
Proof.
  intros H. rewrite menu_add_items.
  destruct H as [H|H].
  - rewrite H. reflexivity.
  - apply includes_In in H. rewrite H, andb_false_r. reflexivity.
Qed.

Lemma menu_add_appends (raw : jsstring) (st : state) :
  trim raw <> [] -> ~ In (trim raw) (menuItems st) ->
  menuItems (add raw st) = menuItems st ++ [trim raw]
  /\ newMenuItem (add raw st) = [].
Proof.
  intros Hx Hin. rewrite menu_add_items, menu_add_input.
  apply truthy_true in Hx. apply includes_not_In in Hin.
  rewrite Hx, Hin. split; reflexivity.
Qed.

Lemma menu_add_In (raw : jsstring) (st : state) :
  trim raw <> [] -> In (trim raw) (menuItems (add raw st)).
Proof.
  intros Hx. rewrite menu_add_items.
  apply truthy_true in Hx. rewrite Hx. simpl.
  destruct (Array_includes (menuItems st) (trim raw)) eqn:E; simpl.
  - now apply includes_In.
  - apply in_or_app. right. now left.
Qed.

Lemma menu_add_again (raw raw' : jsstring) (st : state) :
  trim raw' = trim raw ->
  menuItems (add raw' (add raw st)) = menuItems (add raw st).
Proof.
  intros E. apply menu_add_noop. rewrite E.
  destruct (trim raw) eqn:Hx; [now left | right].
  rewrite <- Hx. apply menu_add_In. congruence.
Qed.

Lemma menu_add_occurrences (raw : jsstring) (st : state) :
  trim raw <> [] -> occurrences (trim raw) (menuItems st) <= 1 ->
  occurrences (trim raw) (menuItems (add raw st)) = 1.
Proof.
  intros Hx Hocc. rewrite menu_add_items.
  apply truthy_true in Hx. rewrite Hx. simpl.
  destruct (Array_includes (menuItems st) (trim raw)) eqn:E; simpl.
  - apply includes_In in E. apply occurrences_present in E. lia.
  - apply includes_not_In in E. rewrite occurrences_app.
    rewrite (occurrences_absent _ _ E). unfold occurrences. simpl.
    now rewrite eqb_refl.
Qed.

Lemma menu_add_NoDup (raw : jsstring) (st : state) :
  NoDup (menuItems st) -> NoDup (menuItems (add raw st)).
Proof.
  intros H. rewrite menu_add_items.
  destruct (truthy (trim raw)); simpl; [|assumption].
  destruct (Array_includes (menuItems st) (trim raw)) eqn:E; simpl; [assumption|].
  apply NoDup_snoc; [assumption|]. now apply includes_not_In.
Qed.

Lemma menu_remove_items (index : Z) (st : state) :
  menuItems (remove index st)
  = Array_filter (fun _ i => neq_index i index) (menuItems st).
Proof. reflexivity. Qed.

Lemma menu_remove_rest (index : Z) (st : state) :
  newMenuItem (remove index st) = newMenuItem st
  /\ restaurantName (remove index st) = restaurantName st
  /\ analysis (remove index st) = analysis st
  /\ loading (remove index st) = loading st
  /\ error (remove index st) = error st.
Proof. repeat split. Qed.

Lemma menu_remove_inside (index : Z) (st : state) :
  (0 <= index < Z.of_nat (List.length (menuItems st)))%Z ->
  menuItems (remove index st)
  = firstn (Z.to_nat index) (menuItems st)
    ++ skipn (S (Z.to_nat index)) (menuItems st).
Proof.
  intros H. rewrite menu_remove_items. unfold Array_filter.
  pose proof (filter_from_inside (menuItems st) 0 (n := Z.to_nat index)) as F.
  simpl in F. rewrite Z2Nat.id in F by lia. apply F. lia.
Qed.

Lemma menu_remove_outside (index : Z) (st : state) :
  (index < 0 \/ Z.of_nat (List.length (menuItems st)) <= index)%Z ->
  remove index st = st.
Proof.
  intros H. unfold remove, removeMenuItem, Array_filter. simpl.
  rewrite filter_from_outside by (simpl; lia). now destruct st.
Qed.

End MenuCollector.

(* ================================================================= *)
(** ** MenuAnalyzer: submitting                                       *)
(* ================================================================= *)

Section MenuSubmit.

Import MenuAnalyzer.

Lemma menu_submit_empty (st : state) :
  menuItems st = [] ->
  analyzeMenu st = [ setError (js "Please add at least one menu item") ].
Proof. unfold analyzeMenu. now intros ->. Qed.

Lemma menu_submit_nonempty (st : state) :
  menuItems st <> [] ->
  analyzeMenu st
  = [ setLoading true; setError []; setAnalysis None;
      axios_post (js "http://localhost:8001" ++ js "/restaurant-analysis")
        (JObject [ ("menu_items"%string, JArray (List.map JString (menuItems st)));
                   ("restaurant_name"%string,
                    or_else JString (restaurantName st) (JString (js "Restaurant"))) ]) ].
Proof.
  unfold analyzeMenu. destruct (menuItems st); [congruence | reflexivity].
Qed.

Lemma menu_settled_no_post (o : outcome) : posts (analyzeMenu_settled o) = [].
Proof. now destruct o. Qed.

(** Editing the collection or the text fields leaves the display cells
    and the requests in flight alone. *)
Lemma menu_edit_keeps (w w' : world) (e : event) :
  is_edit e = true -> fire w e = Some w' ->
  analysis (panel w') = analysis (panel w)
  /\ loading (panel w') = loading (panel w)
  /\ error (panel w') = error (panel w)
  /\ pending w' = pending w.
Proof.
  destruct e; simpl; try discriminate; intros _ H; injection H as <-; simpl; auto.
  unfold addMenuItem.
  destruct (truthy (trim (newMenuItem (panel w)))
            && negb (Array_includes (menuItems (panel w)) (trim (newMenuItem (panel w)))));
    simpl; auto.
Qed.

Lemma menu_edits_keep (es : list event) :
  forallb is_edit es = true ->
  forall w, exists w',
    fire_all w es = Some w'
    /\ analysis (panel w') = analysis (panel w)
    /\ loading (panel w') = loading (panel w)
    /\ error (panel w') = error (panel w)
    /\ pending w' = pending w.
Proof.
  induction es as [|e es IH]; simpl; intros H w.
  - exists w. auto.
  - apply andb_true_iff in H as [He Hes].
    destruct (fire w e) as [w1|] eqn:F.
    + destruct (menu_edit_keeps w e He F) as (R1 & L1 & E1 & P1).
      destruct (IH Hes w1) as (w' & F' & R & L & E & P).
      exists w'. rewrite F', R, L, E, P. auto.
    + destruct e; simpl in *; discriminate.
Qed.

Lemma menu_fire_all_app (es1 es2 : list event) (w : world) :
  fire_all w (es1 ++ es2)
  = match fire_all w es1 with Some w1 => fire_all w1 es2 | None => None end.
Proof.
  revert w; induction es1 as [|e es1 IH]; intros w; simpl; [reflexivity|].
  destruct (fire w e); [apply IH | reflexivity].
Qed.

Lemma menu_consistent_start : consistent start.
Proof. unfold consistent; simpl. auto. Qed.

Lemma menu_consistent_step (w w' : world) (e : event) :
  consistent w -> enabled w e = true -> fire w e = Some w' -> consistent w'.
Proof.
  intros C En F. destruct (is_edit e) eqn:Ed.
  - destruct (menu_edit_keeps w e Ed F) as (R & L & E & P).
    unfold consistent in *. now rewrite R, L, E, P.
  - destruct e; try discriminate; simpl in En, F.
    + (* the submit button, enabled *)
      unfold submit_disabled in En. apply negb_true_iff, orb_false_iff in En as [HL HI].
      injection F as <-. unfold consistent in *. rewrite HL in C. destruct C as [P _].
      unfold analyzeMenu. rewrite HI. simpl. rewrite P. auto.
    + (* a promise settles *)
      unfold consistent in C.
      destruct (pending w) as [|n] eqn:P; [discriminate|]. injection F as <-.
      destruct (loading (panel w)); destruct C as [Pn C]; [|discriminate].
      destruct C as [E R]. injection Pn as ->.
      unfold consistent. destruct o; simpl; auto.
Qed.

Lemma menu_ui_consistent (w : world) : ui_reachable w -> consistent w.
Proof.
  induction 1 as [|w e w' _ IH En F].
  - apply menu_consistent_start.
  - eapply menu_consistent_step; eassumption.
Qed.

Lemma menu_ui_is_reachable (w : world) : ui_reachable w -> reachable w.
Proof.
  induction 1 as [|w e w' _ IH _ F]; [constructor | econstructor; eassumption].
Qed.

Lemma menu_fire_all_reachable (es : list event) (w w' : world) :
  reachable w -> fire_all w es = Some w' -> reachable w'.
Proof.
  revert w; induction es as [|e es IH]; simpl; intros w R F.
  - now injection F as <-.
  - destruct (fire w e) as [w1|] eqn:F1; [|discriminate].
    apply (IH w1); [econstructor; eassumption | assumption].
Qed.

(** The collection never holds an item twice. *)
Lemma menu_reachable_NoDup (w : world) :
  reachable w -> NoDup (menuItems (panel w)).
Proof.
  induction 1 as [|w e w' _ IH F].
  - constructor.
  - destruct e; simpl in F.
    + now injection F as <-.
    + now injection F as <-.
    + injection F as <-. unfold addMenuItem.
      destruct (truthy (trim (newMenuItem (panel w)))) eqn:T; simpl; [|assumption].
      destruct (Array_includes (menuItems (panel w)) (trim (newMenuItem (panel w)))) eqn:E;
        simpl; [assumption|].
      apply NoDup_snoc; [assumption | now apply includes_not_In].
    + injection F as <-. simpl. now apply filter_from_NoDup.
    + injection F as <-. unfold analyzeMenu.
      destruct (List.length (menuItems (panel w)) =? 0); simpl; assumption.
    + destruct (pending w); [discriminate|]. injection F as <-.
      destruct o; simpl; assumption.
Qed.

Lemma menu_ui_fire_all_reachable (es : list event) (w w' : world) :
  ui_reachable w -> ui_fire_all w es = Some w' -> ui_reachable w'.
Proof.
  revert w; induction es as [|e es IH]; simpl; intros w R F.
  - now injection F as <-.
  - destruct (enabled w e) eqn:En; [|discriminate].
    destruct (fire w e) as [w1|] eqn:F1; [|discriminate].
    apply (IH w1); [econstructor; eassumption | assumption].
Qed.

End MenuSubmit.

(* ================================================================= *)
(** ** The request body and a blank modifier                          *)
(* ================================================================= *)

(** C1, as stated, fails for the menu panel: with one menu item and the
    restaurant-name field left empty, the single request carries
    [restaurant_name: "Restaurant"], which is neither [null] nor absent. *)
Lemma menu_blank_name_is_not_null :
  let st := MenuAnalyzer.add (js "soup") MenuAnalyzer.initial in
  MenuAnalyzer.restaurantName st = js ""
  /\ MenuAnalyzer.posts (MenuAnalyzer.analyzeMenu st)
     = [ (js "http://localhost:8001/restaurant-analysis",
          JObject [ ("menu_items"%string, JArray [JString (js "soup")]);
                    ("restaurant_name"%string, JString (js "Restaurant")) ]) ]
  /\ List.map (fun req => null_or_absent (get "restaurant_name" (snd req)))
       (MenuAnalyzer.posts (MenuAnalyzer.analyzeMenu st))
     = [false].
Proof. vm_compute. repeat split. Qed.

(** C1 (amended): with a blank modifier field the recipe panel sends
    [dietary_preferences: null]; the menu panel sends the default name
    ["Restaurant"] as [restaurant_name].  In both, the items go out as
    they are. *)
Theorem blank_modifier_payload
    (st : RecipeGenerator.state) (mst : MenuAnalyzer.state) :
  (RecipeGenerator.ingredients st <> [] ->
   RecipeGenerator.dietaryPreferences st = js "" ->
   exists url body,
     RecipeGenerator.posts (RecipeGenerator.generateRecipe st) = [(url, body)]
     /\ get "dietary_preferences" body = Some JNull
     /\ null_or_absent (get "dietary_preferences" body) = true
     /\ get "ingredients" body
        = Some (JArray (List.map JString (RecipeGenerator.ingredients st))))
  /\
  (MenuAnalyzer.menuItems mst <> [] ->
   MenuAnalyzer.restaurantName mst = js "" ->
   exists url body,
     MenuAnalyzer.posts (MenuAnalyzer.analyzeMenu mst) = [(url, body)]
     /\ get "restaurant_name" body = Some (JString (js "Restaurant"))
     /\ get "menu_items" body
        = Some (JArray (List.map JString (MenuAnalyzer.menuItems mst)))).
Proof.
  split; intros Hne Hblank.
  - rewrite (recipe_submit_nonempty st Hne), Hblank. simpl.
    eexists; eexists; repeat split.
  - rewrite (menu_submit_nonempty mst Hne), Hblank. simpl.
    eexists; eexists; repeat split.
Qed.

Lemma blank_modifier_payload_witness :
  (exists url body,
     RecipeGenerator.posts
       (RecipeGenerator.generateRecipe
          (RecipeGenerator.add (js "rice") RecipeGenerator.initial))
     = [(url, body)]
     /\ get "dietary_preferences" body = Some JNull
     /\ null_or_absent (get "dietary_preferences" body) = true
     /\ get "ingredients" body = Some (JArray [JString (js "rice")]))
  /\
  (exists url body,
     MenuAnalyzer.posts
       (MenuAnalyzer.analyzeMenu (MenuAnalyzer.add (js "soup") MenuAnalyzer.initial))
     = [(url, body)]
     /\ get "restaurant_name" body = Some (JString (js "Restaurant"))
     /\ get "menu_items" body = Some (JArray [JString (js "soup")])).
Proof.
  pose proof (blank_modifier_payload
                (RecipeGenerator.add (js "rice") RecipeGenerator.initial)
                (MenuAnalyzer.add (js "soup") MenuAnalyzer.initial)) as [HR HM].
  split.
  - apply HR; [vm_compute; discriminate | reflexivity].
  - apply HM; [vm_compute; discriminate | reflexivity].
Defined.

(* ================================================================= *)
(** ** Result and error message                                       *)
(* ================================================================= *)

(** C2, as stated, fails: after a successful submission the user removes
    the only ingredient and [generateRecipe] runs on the empty collection;
    the validation message is set and the recipe stays, so both are
    populated in a state that is neither idle nor loading. *)
Lemma validation_error_beside_result :
  exists w,
    RecipeGenerator.fire_all RecipeGenerator.start
      [ RecipeGenerator.TypeIngredient (js "carrot");
        RecipeGenerator.AddIngredient;
        RecipeGenerator.GenerateRecipe;
        RecipeGenerator.Settle (RecipeGenerator.Fulfilled (Some RecipeGenerator.veggie_stir_fry));
        RecipeGenerator.RemoveIngredient 0;
        RecipeGenerator.GenerateRecipe ] = Some w
    /\ RecipeGenerator.reachable w
    /\ RecipeGenerator.status_of (RecipeGenerator.panel w) = Error
    /\ RecipeGenerator.loading (RecipeGenerator.panel w) = false
    /\ RecipeGenerator.recipe (RecipeGenerator.panel w)
       = Some RecipeGenerator.veggie_stir_fry
    /\ RecipeGenerator.error (RecipeGenerator.panel w)
       = js "Please add at least one ingredient"
    /\ RecipeGenerator.exactly_one_populated (RecipeGenerator.panel w) = false.
Proof.
  eexists. split; [vm_compute; reflexivity|].
  split; [|repeat split].
  eapply recipe_fire_all_reachable with
    (es := [ RecipeGenerator.TypeIngredient (js "carrot");
             RecipeGenerator.AddIngredient;
             RecipeGenerator.GenerateRecipe;
             RecipeGenerator.Settle (RecipeGenerator.Fulfilled (Some RecipeGenerator.veggie_stir_fry));
             RecipeGenerator.RemoveIngredient 0;
             RecipeGenerator.GenerateRecipe ]);
    [apply RecipeGenerator.reachable_start | vm_compute; reflexivity].
Qed.

(** C2 (amended): in every state reached through the controls as they are
    rendered (the submit button is disabled while loading and while the
    collection is empty), a status of success or error comes with exactly
    one of result and error message; adding, removing, a successful and a
    failed submission keep it so.  The handler run on an empty collection
    keeps it exactly when no result is displayed. *)
Theorem ui_states_show_result_or_error :
  (forall w, RecipeGenerator.ui_reachable w ->
     RecipeGenerator.status_of (RecipeGenerator.panel w) = Success
     \/ RecipeGenerator.status_of (RecipeGenerator.panel w) = Error ->
     RecipeGenerator.exactly_one_populated (RecipeGenerator.panel w) = true)
  /\
  (forall w, MenuAnalyzer.ui_reachable w ->
     MenuAnalyzer.status_of (MenuAnalyzer.panel w) = Success
     \/ MenuAnalyzer.status_of (MenuAnalyzer.panel w) = Error ->
     MenuAnalyzer.exactly_one_populated (MenuAnalyzer.panel w) = true)
  /\
  (forall st, RecipeGenerator.ingredients st = [] ->
     (RecipeGenerator.exactly_one_populated
        (RecipeGenerator.run st (RecipeGenerator.generateRecipe st)) = true
      <-> RecipeGenerator.recipe st = None))
  /\
  (forall st, MenuAnalyzer.menuItems st = [] ->
     (MenuAnalyzer.exactly_one_populated
        (MenuAnalyzer.run st (MenuAnalyzer.analyzeMenu st)) = true
      <-> MenuAnalyzer.analysis st = None)).
Proof.
  repeat split.
  - intros w R S. apply recipe_ui_consistent in R.
    unfold RecipeGenerator.consistent, RecipeGenerator.status_of,
      RecipeGenerator.exactly_one_populated in *.
    destruct (truthy (RecipeGenerator.error (RecipeGenerator.panel w))) eqn:T.
    + apply truthy_true in T.
      destruct (RecipeGenerator.loading (RecipeGenerator.panel w)).
      * destruct R as (_ & E & _). contradiction.
      * destruct R as (_ & [E|N]); [contradiction | now rewrite N].
    + destruct (RecipeGenerator.loading (RecipeGenerator.panel w));
        [destruct S; discriminate|].
      destruct (RecipeGenerator.recipe (RecipeGenerator.panel w));
        [reflexivity | destruct S; discriminate].
  - intros w R S. apply menu_ui_consistent in R.
    unfold MenuAnalyzer.consistent, MenuAnalyzer.status_of,
      MenuAnalyzer.exactly_one_populated in *.
    destruct (truthy (MenuAnalyzer.error (MenuAnalyzer.panel w))) eqn:T.
    + apply truthy_true in T.
      destruct (MenuAnalyzer.loading (MenuAnalyzer.panel w)).
      * destruct R as (_ & E & _). contradiction.
      * destruct R as (_ & [E|N]); [contradiction | now rewrite N].
    + destruct (MenuAnalyzer.loading (MenuAnalyzer.panel w));
        [destruct S; discriminate|].
      destruct (MenuAnalyzer.analysis (MenuAnalyzer.panel w));
        [reflexivity | destruct S; discriminate].
  - rewrite (recipe_submit_empty st H). unfold RecipeGenerator.exactly_one_populated.
    simpl. destruct (RecipeGenerator.recipe st); [discriminate | reflexivity].
  - rewrite (recipe_submit_empty st H). unfold RecipeGenerator.exactly_one_populated.
    simpl. now intros ->.
  - rewrite (menu_submit_empty st H). unfold MenuAnalyzer.exactly_one_populated.
    simpl. destruct (MenuAnalyzer.analysis st); [discriminate | reflexivity].
  - rewrite (menu_submit_empty st H). unfold MenuAnalyzer.exactly_one_populated.
    simpl. now intros ->.
Qed.

Lemma ui_states_show_result_or_error_witness :
  (exists w,
     RecipeGenerator.ui_fire_all RecipeGenerator.start
       [ RecipeGenerator.TypeIngredient (js "carrot");
         RecipeGenerator.AddIngredient;
         RecipeGenerator.GenerateRecipe;
         RecipeGenerator.Settle (RecipeGenerator.Fulfilled (Some RecipeGenerator.veggie_stir_fry)) ]
     = Some w
     /\ RecipeGenerator.status_of (RecipeGenerator.panel w) = Success
     /\ RecipeGenerator.exactly_one_populated (RecipeGenerator.panel w) = true)
  /\
  (exists w,
     MenuAnalyzer.ui_fire_all MenuAnalyzer.start
       [ MenuAnalyzer.TypeMenuItem (js "soup");
         MenuAnalyzer.AddMenuItem;
         MenuAnalyzer.AnalyzeMenu;
         MenuAnalyzer.Settle (MenuAnalyzer.Rejected Timeout) ]
     = Some w
     /\ MenuAnalyzer.status_of (MenuAnalyzer.panel w) = Error
     /\ MenuAnalyzer.exactly_one_populated (MenuAnalyzer.panel w) = true)
  /\
  (RecipeGenerator.exactly_one_populated
     (RecipeGenerator.run RecipeGenerator.initial
        (RecipeGenerator.generateRecipe RecipeGenerator.initial)) = true
   <-> RecipeGenerator.recipe RecipeGenerator.initial = None)
  /\
  (MenuAnalyzer.exactly_one_populated
     (MenuAnalyzer.run MenuAnalyzer.initial
        (MenuAnalyzer.analyzeMenu MenuAnalyzer.initial)) = true
   <-> MenuAnalyzer.analysis MenuAnalyzer.initial = None).
Proof.
  destruct ui_states_show_result_or_error as (HR & HM & HRe & HMe).
  split; [|split; [|split]].
  - eexists. split; [vm_compute; reflexivity|]. split; [reflexivity|].
    apply HR; [|left; reflexivity].
    eapply recipe_ui_fire_all_reachable with
      (es := [ RecipeGenerator.TypeIngredient (js "carrot");
               RecipeGenerator.AddIngredient;
               RecipeGenerator.GenerateRecipe;
               RecipeGenerator.Settle
                 (RecipeGenerator.Fulfilled (Some RecipeGenerator.veggie_stir_fry)) ]);
      [apply RecipeGenerator.ui_start | vm_compute; reflexivity].
  - eexists. split; [vm_compute; reflexivity|]. split; [reflexivity|].
    apply HM; [|right; reflexivity].
    eapply menu_ui_fire_all_reachable with
      (es := [ MenuAnalyzer.TypeMenuItem (js "soup");
               MenuAnalyzer.AddMenuItem;
               MenuAnalyzer.AnalyzeMenu;
               MenuAnalyzer.Settle (MenuAnalyzer.Rejected Timeout) ]);
      [apply MenuAnalyzer.ui_start | vm_compute; reflexivity].
  - apply HRe. reflexivity.
  - apply HMe. reflexivity.
Defined.

(* ================================================================= *)
(** ** Submitting an empty collection                                 *)
(* ================================================================= *)

(** C3: on an empty collection the submit handler sends no request, sets
    the error message to the validation text, which makes the status
    error, and leaves every other cell, the displayed result included, as
    it was. *)
Theorem submit_empty_is_local_validation
    (st : RecipeGenerator.state) (mst : MenuAnalyzer.state) :
  (RecipeGenerator.ingredients st = [] ->
   let st' := RecipeGenerator.run st (RecipeGenerator.generateRecipe st) in
   RecipeGenerator.posts (RecipeGenerator.generateRecipe st) = []
   /\ RecipeGenerator.status_of st' = Error
   /\ RecipeGenerator.error st' = js "Please add at least one ingredient"
   /\ RecipeGenerator.recipe st' = RecipeGenerator.recipe st
   /\ RecipeGenerator.loading st' = RecipeGenerator.loading st
   /\ RecipeGenerator.ingredients st' = RecipeGenerator.ingredients st
   /\ RecipeGenerator.newIngredient st' = RecipeGenerator.newIngredient st
   /\ RecipeGenerator.dietaryPreferences st' = RecipeGenerator.dietaryPreferences st)
  /\
  (MenuAnalyzer.menuItems mst = [] ->
   let mst' := MenuAnalyzer.run mst (MenuAnalyzer.analyzeMenu mst) in
   MenuAnalyzer.posts (MenuAnalyzer.analyzeMenu mst) = []
   /\ MenuAnalyzer.status_of mst' = Error
   /\ MenuAnalyzer.error mst' = js "Please add at least one menu item"
   /\ MenuAnalyzer.analysis mst' = MenuAnalyzer.analysis mst
   /\ MenuAnalyzer.loading mst' = MenuAnalyzer.loading mst
   /\ MenuAnalyzer.menuItems mst' = MenuAnalyzer.menuItems mst
   /\ MenuAnalyzer.newMenuItem mst' = MenuAnalyzer.newMenuItem mst
   /\ MenuAnalyzer.restaurantName mst' = MenuAnalyzer.restaurantName mst).
Proof.
  split; intros H.
  - rewrite (recipe_submit_empty st H). simpl. repeat split.
  - rewrite (menu_submit_empty mst H). simpl. repeat split.
Qed.

Lemma submit_empty_is_local_validation_witness :
  (RecipeGenerator.posts (RecipeGenerator.generateRecipe RecipeGenerator.initial) = []
   /\ RecipeGenerator.status_of
        (RecipeGenerator.run RecipeGenerator.initial
           (RecipeGenerator.generateRecipe RecipeGenerator.initial)) = Error)
  /\
  (MenuAnalyzer.posts (MenuAnalyzer.analyzeMenu MenuAnalyzer.initial) = []
   /\ MenuAnalyzer.status_of
        (MenuAnalyzer.run MenuAnalyzer.initial
           (MenuAnalyzer.analyzeMenu MenuAnalyzer.initial)) = Error).
Proof.
  destruct (submit_empty_is_local_validation
              RecipeGenerator.initial MenuAnalyzer.initial) as [HR HM].
  split.
  - destruct (HR eq_refl) as (P & S & _). split; assumption.
  - destruct (HM eq_refl) as (P & S & _). split; assumption.
Defined.

(* ================================================================= *)
(** ** The item collector                                             *)
(* ================================================================= *)

(** C4: adding [raw] works on [trim raw].  When that is empty or already
    in the collection, the collection stays as it is; otherwise it is
    appended at the end and the input field is cleared.  Adding a string
    with the same trimmed form again changes nothing, and a collection
    that held the item at most once holds it exactly once afterwards. *)
Theorem add_trims_dedups_appends
    (raw raw' : jsstring) (st : RecipeGenerator.state) (mst : MenuAnalyzer.state) :
  ((trim raw = [] \/ In (trim raw) (RecipeGenerator.ingredients st) ->
    RecipeGenerator.ingredients (RecipeGenerator.add raw st)
    = RecipeGenerator.ingredients st)
   /\ (trim raw <> [] -> ~ In (trim raw) (RecipeGenerator.ingredients st) ->
       RecipeGenerator.ingredients (RecipeGenerator.add raw st)
       = RecipeGenerator.ingredients st ++ [trim raw]
       /\ RecipeGenerator.newIngredient (RecipeGenerator.add raw st) = js "")
   /\ (trim raw' = trim raw ->
       RecipeGenerator.ingredients (RecipeGenerator.add raw' (RecipeGenerator.add raw st))
       = RecipeGenerator.ingredients (RecipeGenerator.add raw st))
   /\ (trim raw' = trim raw -> trim raw <> [] ->
       occurrences (trim raw) (RecipeGenerator.ingredients st) <= 1 ->
       occurrences (trim raw)
         (RecipeGenerator.ingredients (RecipeGenerator.add raw' (RecipeGenerator.add raw st)))
       = 1))
  /\
  ((trim raw = [] \/ In (trim raw) (MenuAnalyzer.menuItems mst) ->
    MenuAnalyzer.menuItems (MenuAnalyzer.add raw mst) = MenuAnalyzer.menuItems mst)
   /\ (trim raw <> [] -> ~ In (trim raw) (MenuAnalyzer.menuItems mst) ->
       MenuAnalyzer.menuItems (MenuAnalyzer.add raw mst)
       = MenuAnalyzer.menuItems mst ++ [trim raw]
       /\ MenuAnalyzer.newMenuItem (MenuAnalyzer.add raw mst) = js "")
   /\ (trim raw' = trim raw ->
       MenuAnalyzer.menuItems (MenuAnalyzer.add raw' (MenuAnalyzer.add raw mst))
       = MenuAnalyzer.menuItems (MenuAnalyzer.add raw mst))
   /\ (trim raw' = trim raw -> trim raw <> [] ->
       occurrences (trim raw) (MenuAnalyzer.menuItems mst) <= 1 ->
       occurrences (trim raw)
         (MenuAnalyzer.menuItems (MenuAnalyzer.add raw' (MenuAnalyzer.add raw mst)))
       = 1)).
Proof.
  split; (split; [|split; [|split]]).
  - apply recipe_add_noop.
  - apply recipe_add_appends.
  - apply recipe_add_again.
  - intros E Hx Hocc. rewrite (recipe_add_again raw raw' st E).
    now apply recipe_add_occurrences.
  - apply menu_add_noop.
  - apply menu_add_appends.
  - apply menu_add_again.
  - intros E Hx Hocc. rewrite (menu_add_again raw raw' mst E).
    now apply menu_add_occurrences.
Qed.

Lemma add_trims_dedups_appends_witness :
  (RecipeGenerator.ingredients
     (RecipeGenerator.add (js "egg  ") (RecipeGenerator.add (js " egg") RecipeGenerator.initial))
   = [js "egg"]
   /\ RecipeGenerator.newIngredient (RecipeGenerator.add (js " egg") RecipeGenerator.initial)
      = js ""
   /\ RecipeGenerator.ingredients (RecipeGenerator.add (js "   ") RecipeGenerator.initial) = []
   /\ occurrences (js "egg")
        (RecipeGenerator.ingredients
           (RecipeGenerator.add (js "egg  ")
              (RecipeGenerator.add (js " egg") RecipeGenerator.initial))) = 1)
  /\
  (MenuAnalyzer.menuItems
     (MenuAnalyzer.add (js "egg  ") (MenuAnalyzer.add (js " egg") MenuAnalyzer.initial))
   = [js "egg"]
   /\ MenuAnalyzer.newMenuItem (MenuAnalyzer.add (js " egg") MenuAnalyzer.initial) = js ""
   /\ MenuAnalyzer.menuItems (MenuAnalyzer.add (js "   ") MenuAnalyzer.initial) = []
   /\ occurrences (js "egg")
        (MenuAnalyzer.menuItems
           (MenuAnalyzer.add (js "egg  ")
              (MenuAnalyzer.add (js " egg") MenuAnalyzer.initial))) = 1).
Proof.
  destruct (add_trims_dedups_appends (js " egg") (js "egg  ")
              RecipeGenerator.initial MenuAnalyzer.initial)
    as [(_ & RA & RT & RO) (_ & MA & MT & MO)].
  destruct (add_trims_dedups_appends (js "   ") (js "   ")
              RecipeGenerator.initial MenuAnalyzer.initial)
    as [(RN & _) (MN & _)].
  assert (Hne : trim (js " egg") <> []) by (vm_compute; discriminate).
  assert (Hnin : ~ In (trim (js " egg")) []) by (simpl; tauto).
  assert (Heq : trim (js "egg  ") = trim (js " egg")) by (vm_compute; reflexivity).
  split.
  - split; [|split; [|split]].
    + rewrite (RT Heq). exact (proj1 (RA Hne Hnin)).
    + exact (proj2 (RA Hne Hnin)).
    + apply RN. left. vm_compute. reflexivity.
    + apply (RO Heq Hne). vm_compute. lia.
  - split; [|split; [|split]].
    + rewrite (MT Heq). exact (proj1 (MA Hne Hnin)).
    + exact (proj2 (MA Hne Hnin)).
    + apply MN. left. vm_compute. reflexivity.
    + apply (MO Heq Hne). vm_compute. lia.
Defined.

(** C5: removing at a position inside the collection deletes exactly that
    element and keeps the others in their order; at any other integer the
    whole state, so the collection and its length, stays as it is.  The
    handler is a total function: there is nothing to raise. *)
Theorem remove_deletes_one_position
    (index : Z) (st : RecipeGenerator.state) (mst : MenuAnalyzer.state) :
  (((0 <= index < Z.of_nat (List.length (RecipeGenerator.ingredients st)))%Z ->
    RecipeGenerator.ingredients (RecipeGenerator.remove index st)
    = firstn (Z.to_nat index) (RecipeGenerator.ingredients st)
      ++ skipn (S (Z.to_nat index)) (RecipeGenerator.ingredients st)
    /\ S (List.length (RecipeGenerator.ingredients (RecipeGenerator.remove index st)))
       = List.length (RecipeGenerator.ingredients st))
   /\ ((index < 0 \/ Z.of_nat (List.length (RecipeGenerator.ingredients st)) <= index)%Z ->
       RecipeGenerator.remove index st = st))
  /\
  (((0 <= index < Z.of_nat (List.length (MenuAnalyzer.menuItems mst)))%Z ->
    MenuAnalyzer.menuItems (MenuAnalyzer.remove index mst)
    = firstn (Z.to_nat index) (MenuAnalyzer.menuItems mst)
      ++ skipn (S (Z.to_nat index)) (MenuAnalyzer.menuItems mst)
    /\ S (List.length (MenuAnalyzer.menuItems (MenuAnalyzer.remove index mst)))
       = List.length (MenuAnalyzer.menuItems mst))
   /\ ((index < 0 \/ Z.of_nat (List.length (MenuAnalyzer.menuItems mst)) <= index)%Z ->
       MenuAnalyzer.remove index mst = mst)).
Proof.
  split; split.
  - intros H. rewrite (@recipe_remove_inside index st H). split; [reflexivity|].
    rewrite length_app, length_firstn, length_skipn. lia.
  - apply recipe_remove_outside.
  - intros H. rewrite (@menu_remove_inside index mst H). split; [reflexivity|].
    rewrite length_app, length_firstn, length_skipn. lia.
  - apply menu_remove_outside.
Qed.

Lemma remove_deletes_one_position_witness :
  let st := RecipeGenerator.add (js "c")
              (RecipeGenerator.add (js "b")
                 (RecipeGenerator.add (js "a") RecipeGenerator.initial)) in
  let mst := MenuAnalyzer.add (js "c")
               (MenuAnalyzer.add (js "b")
                  (MenuAnalyzer.add (js "a") MenuAnalyzer.initial)) in
  (RecipeGenerator.ingredients (RecipeGenerator.remove 1 st) = [js "a"; js "c"]
   /\ RecipeGenerator.remove 3 st = st
   /\ RecipeGenerator.remove (-1) st = st)
  /\
  (MenuAnalyzer.menuItems (MenuAnalyzer.remove 1 mst) = [js "a"; js "c"]
   /\ MenuAnalyzer.remove 3 mst = mst
   /\ MenuAnalyzer.remove (-1) mst = mst).
Proof.
  intros st mst.
  destruct (remove_deletes_one_position 1 st mst) as [(RI & _) (MI & _)].
  destruct (remove_deletes_one_position 3 st mst) as [(_ & RO) (_ & MO)].
  destruct (remove_deletes_one_position (-1) st mst) as [(_ & RN) (_ & MN)].
  split; (split; [|split]).
  - refine (proj1 (RI _)). vm_compute. split; [discriminate | reflexivity].
  - apply RO. right. vm_compute. discriminate.
  - apply RN. left. reflexivity.
  - refine (proj1 (MI _)). vm_compute. split; [discriminate | reflexivity].
  - apply MO. right. vm_compute. discriminate.
  - apply MN. left. reflexivity.
Defined.

(* ================================================================= *)
(** ** Submitting a non-empty collection                              *)
(* ================================================================= *)

Section SettledSubmit.



(** The same with the promise fulfilled: [response.data] is stored as it
    comes, the error message stays empty. *)
Lemma recipe_fulfilled_submit
    (data : option RecipeResponse.t)
    (w : RecipeGenerator.world) (es : list RecipeGenerator.event) :
  RecipeGenerator.ingredients (RecipeGenerator.panel w) <> [] ->
  forallb RecipeGenerator.is_edit es = true ->
  exists w',
    RecipeGenerator.fire_all w
      (RecipeGenerator.GenerateRecipe :: es
       ++ [RecipeGenerator.Settle (RecipeGenerator.Fulfilled data)]) = Some w'
    /\ RecipeGenerator.recipe (RecipeGenerator.panel w') = data
    /\ RecipeGenerator.error (RecipeGenerator.panel w') = js ""
    /\ RecipeGenerator.loading (RecipeGenerator.panel w') = false.
Proof.
  intros Hne Hed.
  cbn [RecipeGenerator.fire_all RecipeGenerator.fire].
  rewrite (recipe_submit_nonempty _ Hne).
  rewrite recipe_fire_all_app.
  match goal with
  | |- context [RecipeGenerator.fire_all ?w1 es] =>
      destruct (recipe_edits_keep es Hed w1) as (w2 & F & R & L & E & P)
  end.
  rewrite F. simpl in E, P. simpl. rewrite P, Nat.add_1_r.
  eexists. split; [reflexivity|]. simpl. rewrite E. repeat split.
Qed.

Lemma menu_fulfilled_submit
    (data : option MenuAnalysisResponse.t)
    (mw : MenuAnalyzer.world) (mes : list MenuAnalyzer.event) :
  MenuAnalyzer.menuItems (MenuAnalyzer.panel mw) <> [] ->
  forallb MenuAnalyzer.is_edit mes = true ->
  exists mw',
    MenuAnalyzer.fire_all mw
      (MenuAnalyzer.AnalyzeMenu :: mes
       ++ [MenuAnalyzer.Settle (MenuAnalyzer.Fulfilled data)]) = Some mw'
    /\ MenuAnalyzer.analysis (MenuAnalyzer.panel mw') = data
    /\ MenuAnalyzer.error (MenuAnalyzer.panel mw') = js ""
    /\ MenuAnalyzer.loading (MenuAnalyzer.panel mw') = false.
Proof.
  intros Hne Hed.
  cbn [MenuAnalyzer.fire_all MenuAnalyzer.fire].
  rewrite (menu_submit_nonempty _ Hne).
  rewrite menu_fire_all_app.
  match goal with
  | |- context [MenuAnalyzer.fire_all ?w1 mes] =>
      destruct (menu_edits_keep mes Hed w1) as (w2 & F & R & L & E & P)
  end.
  rewrite F. simpl in E, P. simpl. rewrite P, Nat.add_1_r.
  eexists. split; [reflexivity|]. simpl. rewrite E. repeat split.
Qed.

End SettledSubmit.




(** C7, as stated, fails for the menu panel: with the restaurant name left
    blank the one request that is posted carries
    [restaurant_name: "Restaurant"], so its body is not the RequestPayload,
    whose modifier is null or absent when blank. *)
Lemma menu_body_is_not_the_RequestPayload :
  let st := MenuAnalyzer.add (js "soup") MenuAnalyzer.initial in
  MenuAnalyzer.menuItems st = [js "soup"]
  /\ MenuAnalyzer.restaurantName st = js ""
  /\ MenuAnalyzer.analyzeMenu st
     = [ MenuAnalyzer.setLoading true;
         MenuAnalyzer.setError (js "");
         MenuAnalyzer.setAnalysis None;
         MenuAnalyzer.axios_post (js "http://localhost:8001/restaurant-analysis")
           (JObject [ ("menu_items"%string, JArray [JString (js "soup")]);
                      ("restaurant_name"%string, JString (js "Restaurant")) ]) ]
  /\ ~ is_RequestPayload "menu_items" "restaurant_name"
         (MenuAnalyzer.menuItems st) (MenuAnalyzer.restaurantName st)
         (JObject [ ("menu_items"%string, JArray [JString (js "soup")]);
                    ("restaurant_name"%string, JString (js "Restaurant")) ]).
Proof.
  repeat split. intros [_ H]. vm_compute in H. discriminate H.
Qed.

(** C7 (amended): on a non-empty collection the submit handler first sets
    the loading flag and clears error and result, then posts once to the
    endpoint of the panel; the continuation of the handler posts nothing
    more.  The body holds the items as collected and the modifier as
    typed; for a blank modifier the recipe panel sends [null], which makes
    its body the RequestPayload in every case, and the menu panel sends
    the name ["Restaurant"], so its body is the RequestPayload for a
    non-blank name only. *)
Theorem submit_nonempty_posts_once
    (st : RecipeGenerator.state) (mst : MenuAnalyzer.state) :
  (RecipeGenerator.ingredients st <> [] ->
   let body :=
     JObject
       [ ("ingredients"%string,
          JArray (List.map JString (RecipeGenerator.ingredients st)));
         ("dietary_preferences"%string,
          match RecipeGenerator.dietaryPreferences st with
          | [] => JNull
          | _ :: _ => JString (RecipeGenerator.dietaryPreferences st)
          end) ] in
   RecipeGenerator.generateRecipe st
   = [ RecipeGenerator.setLoading true;
       RecipeGenerator.setError (js "");
       RecipeGenerator.setRecipe None;
       RecipeGenerator.axios_post
         (js "http://localhost:8001" ++ js "/generate-recipe") body ]
   /\ RecipeGenerator.posts (RecipeGenerator.generateRecipe st)
      = [ (js "http://localhost:8001/generate-recipe", body) ]
   /\ (let st' := RecipeGenerator.run st (RecipeGenerator.generateRecipe st) in
       RecipeGenerator.status_of st' = Loading
       /\ RecipeGenerator.loading st' = true
       /\ RecipeGenerator.recipe st' = None
       /\ RecipeGenerator.error st' = js "")
   /\ (forall o, RecipeGenerator.posts (RecipeGenerator.generateRecipe_settled o) = [])
   /\ is_RequestPayload "ingredients" "dietary_preferences"
        (RecipeGenerator.ingredients st) (RecipeGenerator.dietaryPreferences st) body)
  /\
  (MenuAnalyzer.menuItems mst <> [] ->
   let body :=
     JObject
       [ ("menu_items"%string,
          JArray (List.map JString (MenuAnalyzer.menuItems mst)));
         ("restaurant_name"%string,
          match MenuAnalyzer.restaurantName mst with
          | [] => JString (js "Restaurant")
          | _ :: _ => JString (MenuAnalyzer.restaurantName mst)
          end) ] in
   MenuAnalyzer.analyzeMenu mst
   = [ MenuAnalyzer.setLoading true;
       MenuAnalyzer.setError (js "");
       MenuAnalyzer.setAnalysis None;
       MenuAnalyzer.axios_post
         (js "http://localhost:8001" ++ js "/restaurant-analysis") body ]
   /\ MenuAnalyzer.posts (MenuAnalyzer.analyzeMenu mst)
      = [ (js "http://localhost:8001/restaurant-analysis", body) ]
   /\ (let mst' := MenuAnalyzer.run mst (MenuAnalyzer.analyzeMenu mst) in
       MenuAnalyzer.status_of mst' = Loading
       /\ MenuAnalyzer.loading mst' = true
       /\ MenuAnalyzer.analysis mst' = None
       /\ MenuAnalyzer.error mst' = js "")
   /\ (forall o, MenuAnalyzer.posts (MenuAnalyzer.analyzeMenu_settled o) = [])
   /\ (is_RequestPayload "menu_items" "restaurant_name"
         (MenuAnalyzer.menuItems mst) (MenuAnalyzer.restaurantName mst) body
       <-> MenuAnalyzer.restaurantName mst <> js "")).
Proof.
  split; intros Hne body; subst body.
  - rewrite (recipe_submit_nonempty st Hne). unfold or_else.
    destruct (RecipeGenerator.dietaryPreferences st) as [|c m] eqn:D; simpl;
      (split; [reflexivity|]; split; [reflexivity|];
       split; [repeat split|]; split; [apply recipe_settled_no_post|]);
      split; reflexivity.
  - rewrite (menu_submit_nonempty mst Hne). unfold or_else.
    destruct (MenuAnalyzer.restaurantName mst) as [|c m] eqn:D; simpl;
      (split; [reflexivity|]; split; [reflexivity|];
       split; [repeat split|]; split; [apply menu_settled_no_post|]).
    + split; [|intros H; now contradiction H].
      intros [_ H]. vm_compute in H. discriminate H.
    + split; [discriminate|]. intros _. split; reflexivity.
Qed.

Lemma submit_nonempty_posts_once_witness :
  RecipeGenerator.posts
    (RecipeGenerator.generateRecipe (RecipeGenerator.add (js "rice") RecipeGenerator.initial))
  = [ (js "http://localhost:8001/generate-recipe",
       JObject [ ("ingredients"%string, JArray [JString (js "rice")]);
                 ("dietary_preferences"%string, JNull) ]) ]
  /\
  RecipeGenerator.posts
    (RecipeGenerator.generateRecipe
       (RecipeGenerator.run (RecipeGenerator.add (js "rice") RecipeGenerator.initial)
          [RecipeGenerator.setDietaryPreferences (js "vegan")]))
  = [ (js "http://localhost:8001/generate-recipe",
       JObject [ ("ingredients"%string, JArray [JString (js "rice")]);
                 ("dietary_preferences"%string, JString (js "vegan")) ]) ]
  /\
  MenuAnalyzer.posts
    (MenuAnalyzer.analyzeMenu (MenuAnalyzer.add (js "soup") MenuAnalyzer.initial))
  = [ (js "http://localhost:8001/restaurant-analysis",
       JObject [ ("menu_items"%string, JArray [JString (js "soup")]);
                 ("restaurant_name"%string, JString (js "Restaurant")) ]) ]
  /\
  MenuAnalyzer.posts
    (MenuAnalyzer.analyzeMenu
       (MenuAnalyzer.run (MenuAnalyzer.add (js "soup") MenuAnalyzer.initial)
          [MenuAnalyzer.setRestaurantName (js "Chez Nous")]))
  = [ (js "http://localhost:8001/restaurant-analysis",
       JObject [ ("menu_items"%string, JArray [JString (js "soup")]);
                 ("restaurant_name"%string, JString (js "Chez Nous")) ]) ].
Proof.
  destruct (submit_nonempty_posts_once
              (RecipeGenerator.add (js "rice") RecipeGenerator.initial)
              (MenuAnalyzer.add (js "soup") MenuAnalyzer.initial)) as [HB MB].
  destruct (submit_nonempty_posts_once
              (RecipeGenerator.run (RecipeGenerator.add (js "rice") RecipeGenerator.initial)
                 [RecipeGenerator.setDietaryPreferences (js "vegan")])
              (MenuAnalyzer.run (MenuAnalyzer.add (js "soup") MenuAnalyzer.initial)
                 [MenuAnalyzer.setRestaurantName (js "Chez Nous")])) as [HR HM].
  split; [|split; [|split]].
  - refine (proj1 (proj2 (HB _))). vm_compute. discriminate.
  - refine (proj1 (proj2 (HR _))). vm_compute. discriminate.
  - refine (proj1 (proj2 (MB _))). vm_compute. discriminate.
  - refine (proj1 (proj2 (HM _))). vm_compute. discriminate.
Defined.

(* ================================================================= *)
(** ** Scores                                                         *)
(* ================================================================= *)

Section Scores.

Lemma recognised_false (s : jsstring) :
  recognised s = false ->
  eqb s (js "green") = false /\ eqb s (js "yellow") = false /\ eqb s (js "red") = false.
Proof.
  unfold recognised. intros H.
  apply orb_false_iff in H as [H R]. apply orb_false_iff in H as [G Y]. auto.
Qed.

Lemma recognised_true (t : jsstring) :
  recognised t = true -> t = js "green" \/ t = js "yellow" \/ t = js "red".
Proof.
  unfold recognised. intros H.
  apply orb_true_iff in H as [H|R]; [apply orb_true_iff in H as [G|Y]|].
  - left. now apply eqb_eq.
  - right; left. now apply eqb_eq.
  - right; right. now apply eqb_eq.
Qed.

Lemma recipe_color_fallback (s : jsstring) :
  recognised s = false ->
  RecipeGenerator.getScoreColor s = js "text-gray-600 bg-gray-100".
Proof.
  intros H. destruct (recognised_false s H) as (G & Y & R).
  unfold RecipeGenerator.getScoreColor. now rewrite G, Y, R.
Qed.

Lemma recipe_icon_fallback (s : jsstring) :
  recognised s = false ->
  RecipeGenerator.getScoreIcon s = RecipeGenerator.question_mark.
Proof.
  intros H. destruct (recognised_false s H) as (G & Y & R).
  unfold RecipeGenerator.getScoreIcon. now rewrite G, Y, R.
Qed.

Lemma menu_color_fallback (s : jsstring) :
  recognised s = false ->
  MenuAnalyzer.getScoreColor s = js "text-gray-600 bg-gray-100".
Proof.
  intros H. destruct (recognised_false s H) as (G & Y & R).
  unfold MenuAnalyzer.getScoreColor. now rewrite G, Y, R.
Qed.

Lemma menu_icon_fallback (s : jsstring) :
  recognised s = false ->
  MenuAnalyzer.getScoreIcon s = h "AlertCircle" None (js "h-5 w-5") [].
Proof.
  intros H. destruct (recognised_false s H) as (G & Y & R).
  unfold MenuAnalyzer.getScoreIcon. now rewrite G, Y, R.
Qed.

Lemma recipe_color_range (s : jsstring) :
  In (RecipeGenerator.getScoreColor s)
     [ js "text-green-600 bg-green-100"; js "text-yellow-600 bg-yellow-100";
       js "text-red-600 bg-red-100"; js "text-gray-600 bg-gray-100" ].
Proof.
  unfold RecipeGenerator.getScoreColor.
  destruct (eqb s (js "green")); [now left|].
  destruct (eqb s (js "yellow")); [now right; left|].
  destruct (eqb s (js "red")); [now right; right; left | now right; right; right; left].
Qed.

Lemma menu_color_range (s : jsstring) :
  In (MenuAnalyzer.getScoreColor s)
     [ js "text-green-600 bg-green-100"; js "text-yellow-600 bg-yellow-100";
       js "text-red-600 bg-red-100"; js "text-gray-600 bg-gray-100" ].
Proof.
  unfold MenuAnalyzer.getScoreColor.
  destruct (eqb s (js "green")); [now left|].
  destruct (eqb s (js "yellow")); [now right; left|].
  destruct (eqb s (js "red")); [now right; right; left | now right; right; right; left].
Qed.

Lemma recipe_icon_range (s : jsstring) :
  In (RecipeGenerator.getScoreIcon s)
     [ RecipeGenerator.check_mark; RecipeGenerator.warning_sign;
       RecipeGenerator.question_mark ].
Proof.
  unfold RecipeGenerator.getScoreIcon.
  destruct (eqb s (js "green")); [now left|].
  destruct (eqb s (js "yellow")); [now right; left|].
  destruct (eqb s (js "red")); [now right; left | now right; right; left].
Qed.

Lemma menu_icon_range (s : jsstring) :
  In (MenuAnalyzer.getScoreIcon s)
     [ h "CheckCircle" None (js "h-5 w-5") []; h "AlertCircle" None (js "h-5 w-5") [];
       h "XCircle" None (js "h-5 w-5") [] ].
Proof.
  unfold MenuAnalyzer.getScoreIcon.
  destruct (eqb s (js "green")); [now left|].
  destruct (eqb s (js "yellow")); [now right; left|].
  destruct (eqb s (js "red")); [now right; right; left | now right; left].
Qed.

End Scores.

(** C8, as stated, fails for the menu panel: an unmatched score gets the
    [AlertCircle] icon, the very icon of ["yellow"], not an icon of its
    own for "unknown". *)
Lemma menu_fallback_icon_is_the_yellow_icon :
  recognised (js "unknown") = false
  /\ recognised (js "yellow") = true
  /\ MenuAnalyzer.getScoreIcon (js "unknown") = h "AlertCircle" None (js "h-5 w-5") []
  /\ MenuAnalyzer.getScoreIcon (js "unknown") = MenuAnalyzer.getScoreIcon (js "yellow")
  /\ ~ fallback_of_its_own MenuAnalyzer.getScoreIcon.
Proof.
  repeat split.
  intros F. apply (F (js "unknown") (js "yellow")); reflexivity.
Qed.

(** C8 (amended): both look-ups of both panels are total.  Whatever the
    string, the colour is one of four classes and the icon one of three.
    An unmatched score gets the gray class in both panels, a colour no
    recognised score has; in the recipe panel it gets the question-mark
    emoji, an icon no recognised score has; in the menu panel it gets the
    [AlertCircle] icon, which is also the icon of ["yellow"]. *)
Theorem score_presentation_total_with_fallback (score : jsstring) :
  (In (RecipeGenerator.getScoreColor score)
      [ js "text-green-600 bg-green-100"; js "text-yellow-600 bg-yellow-100";
        js "text-red-600 bg-red-100"; js "text-gray-600 bg-gray-100" ]
   /\ In (RecipeGenerator.getScoreIcon score)
         [ RecipeGenerator.check_mark; RecipeGenerator.warning_sign;
           RecipeGenerator.question_mark ]
   /\ In (MenuAnalyzer.getScoreColor score)
         [ js "text-green-600 bg-green-100"; js "text-yellow-600 bg-yellow-100";
           js "text-red-600 bg-red-100"; js "text-gray-600 bg-gray-100" ]
   /\ In (MenuAnalyzer.getScoreIcon score)
         [ h "CheckCircle" None (js "h-5 w-5") []; h "AlertCircle" None (js "h-5 w-5") [];
           h "XCircle" None (js "h-5 w-5") [] ])
  /\
  (recognised score = false ->
   RecipeGenerator.getScoreColor score = js "text-gray-600 bg-gray-100"
   /\ RecipeGenerator.getScoreIcon score = RecipeGenerator.question_mark
   /\ MenuAnalyzer.getScoreColor score = js "text-gray-600 bg-gray-100"
   /\ MenuAnalyzer.getScoreIcon score = h "AlertCircle" None (js "h-5 w-5") []
   /\ MenuAnalyzer.getScoreIcon score = MenuAnalyzer.getScoreIcon (js "yellow"))
  /\ fallback_of_its_own RecipeGenerator.getScoreColor
  /\ fallback_of_its_own RecipeGenerator.getScoreIcon
  /\ fallback_of_its_own MenuAnalyzer.getScoreColor.
Proof.
  split; [|split; [|split; [|split]]].
  - auto using recipe_color_range, recipe_icon_range, menu_color_range, menu_icon_range.
  - intros H. rewrite (menu_icon_fallback score H).
    auto using recipe_color_fallback, recipe_icon_fallback, menu_color_fallback.
  - intros s t Hs Ht. rewrite (recipe_color_fallback s Hs).
    destruct (recognised_true t Ht) as [->|[->| ->]]; vm_compute; discriminate.
  - intros s t Hs Ht. rewrite (recipe_icon_fallback s Hs).
    destruct (recognised_true t Ht) as [->|[->| ->]]; vm_compute; discriminate.
  - intros s t Hs Ht. rewrite (menu_color_fallback s Hs).
    destruct (recognised_true t Ht) as [->|[->| ->]]; vm_compute; discriminate.
Qed.

Lemma score_presentation_total_with_fallback_witness :
  RecipeGenerator.getScoreColor (js "unknown") = js "text-gray-600 bg-gray-100"
  /\ RecipeGenerator.getScoreIcon (js "unknown") = RecipeGenerator.question_mark
  /\ MenuAnalyzer.getScoreColor (js "unknown") = js "text-gray-600 bg-gray-100"
  /\ MenuAnalyzer.getScoreIcon (js "unknown") = h "AlertCircle" None (js "h-5 w-5") []
  /\ MenuAnalyzer.getScoreIcon (js "unknown") = MenuAnalyzer.getScoreIcon (js "yellow")
  /\ RecipeGenerator.getScoreIcon (js "unknown") <> RecipeGenerator.getScoreIcon (js "red").
Proof.
  destruct (score_presentation_total_with_fallback (js "unknown"))
    as (_ & F & _ & I & _).
  destruct (F eq_refl) as (A & B & C & D & E).
  repeat (split; [assumption|]).
  apply I; reflexivity.
Defined.

(* ================================================================= *)
(** ** The rendered recipe                                            *)
(* ================================================================= *)

(** C9: once the request settles with the Veggie Stir Fry response, the
    display shows one unordered list with the two ingredients in order,
    one ordered list with the two instructions numbered 1 and 2 in order,
    the eco badge in the green class with the check mark (U+2705) and the
    health badge in the yellow class with the warning sign (U+26A0
    U+FE0F). *)
Theorem veggie_stir_fry_rendering (st : RecipeGenerator.state) :
  let st' := RecipeGenerator.run st
               (RecipeGenerator.generateRecipe_settled
                  (RecipeGenerator.Fulfilled (Some RecipeGenerator.veggie_stir_fry))) in
  let view := RecipeGenerator.recipeDisplay st' in
  let ingredient_entries := flat_map children (by_tag "ul" view) in
  let instruction_entries := flat_map children (by_tag "ol" view) in
  let badges := children (nth 1 (children view) (text [])) in
  RecipeGenerator.recipe st' = Some RecipeGenerator.veggie_stir_fry
  /\ List.length (by_tag "ul" view) = 1
  /\ List.length (by_tag "ol" view) = 1
  /\ List.length ingredient_entries = 2
  /\ List.map texts ingredient_entries = [[js "carrot"]; [js "broccoli"]]
  /\ List.length instruction_entries = 2
  /\ List.map numbers instruction_entries = [[1%Z]; [2%Z]]
  /\ List.map texts instruction_entries = [[js "Chop"]; [js "Cook"]]
  /\ List.map key instruction_entries = [Some 0; Some 1]
  /\ List.length (by_tag "li" view) = 4
  /\ List.map (fun badge => (className badge, texts badge)) badges
     = [ (js "p-3 rounded-lg text-green-600 bg-green-100",
          [js "Eco Score"; [9989%N]]);
         (js "p-3 rounded-lg text-yellow-600 bg-yellow-100",
          [js "Health Score"; [9888%N; 65039%N]]) ]
  /\ RecipeGenerator.getScoreColor (js "green") = js "text-green-600 bg-green-100"
  /\ RecipeGenerator.getScoreIcon (js "green") = [9989%N]
  /\ RecipeGenerator.getScoreColor (js "yellow") = js "text-yellow-600 bg-yellow-100"
  /\ RecipeGenerator.getScoreIcon (js "yellow") = [9888%N; 65039%N].
Proof.
  intros st' view ingredient_entries instruction_entries badges.
  subst ingredient_entries instruction_entries badges view st'.
  destruct st; vm_compute. repeat split.
Qed.

(** C10: in the recipe panel red and yellow get the same icon, the warning
    sign; they differ in the colour class only. *)
Theorem recipe_red_and_yellow_share_icon :
  RecipeGenerator.getScoreIcon (js "red") = RecipeGenerator.warning_sign
  /\ RecipeGenerator.getScoreIcon (js "yellow") = RecipeGenerator.warning_sign
  /\ RecipeGenerator.getScoreIcon (js "red") = RecipeGenerator.getScoreIcon (js "yellow")
  /\ RecipeGenerator.warning_sign = [9888%N; 65039%N]
  /\ RecipeGenerator.getScoreColor (js "red")
     <> RecipeGenerator.getScoreColor (js "yellow").
Proof.
  repeat split. vm_compute. discriminate.
Qed.

(* ================================================================= *)
(** ** More facts about the helpers                                   *)
(* ================================================================= *)

Section TrimFacts.

Lemma trimStart_fix (u : jsstring) :
  match u with [] => True | c :: _ => isWhiteSpace c = false end ->
  trimStart u = u.
Proof. destruct u as [|c u]; simpl; [reflexivity|]. now intros ->. Qed.

Lemma trim_idempotent (s : jsstring) : trim (trim s) = trim s.
Proof.
  unfold trim at 1. unfold trimEnd.
  rewrite (trimStart_fix (trim s) (trim_first s)).
  rewrite (trimStart_fix (rev (trim s)) (trim_last s)).
  apply rev_involutive.
Qed.

Lemma forallb_rev (A : Type) (f : A -> bool) (l : list A) :
  forallb f l = true -> forallb f (rev l) = true.
Proof.
  rewrite !forallb_forall. intros H x Hx. apply H. now apply in_rev.
Qed.

Lemma trim_decompose (s : jsstring) :
  exists p q,
    s = p ++ trim s ++ q
    /\ forallb isWhiteSpace p = true /\ forallb isWhiteSpace q = true.
Proof.
  destruct (trimStart_suffix s) as (p & Es & Hp).
  destruct (trimStart_suffix (rev (trimStart s))) as (q & Eq & Hq).
  exists p, (rev q). repeat split; [|assumption | now apply forallb_rev].
  unfold trim, trimEnd. rewrite <- rev_app_distr, <- Eq, rev_involutive.
  exact Es.
Qed.

Lemma trim_truthy_trimmed (s : jsstring) : truthy (trim s) = true -> trimmed (trim s).
Proof.
  intros H. split; [now apply truthy_true | apply trim_idempotent].
Qed.

End TrimFacts.

Section MoreArrayFacts.

Variables A B : Type.

Lemma filter_from_Forall (P : A -> Prop) (f : A -> nat -> bool) (l : list A) (i : nat) :
  Forall P l -> Forall P (filter_from f i l).
Proof.
  rewrite !Forall_forall. intros H x Hx. apply H.
  eapply filter_from_In; eassumption.
Qed.

Lemma map_from_nth_error (f : A -> nat -> B) (l : list A) (i k : nat) :
  nth_error (map_from f i l) k
  = match nth_error l k with Some x => Some (f x (i + k)) | None => None end.
Proof.
  revert i k; induction l as [|x l IH]; intros i [|k]; simpl; try reflexivity.
  - now rewrite Nat.add_0_r.
  - rewrite IH. now rewrite Nat.add_succ_r.
Qed.

Lemma map_from_In (f : A -> nat -> B) (l : list A) (i : nat) (y : B) :
  In y (map_from f i l) ->
  exists k x, nth_error l k = Some x /\ y = f x (i + k).
Proof.
  intros H. apply In_nth_error in H as (k & Hk).
  rewrite map_from_nth_error in Hk.
  destruct (nth_error l k) as [x|] eqn:E; [|discriminate].
  exists k, x. split; [exact E | congruence].
Qed.

(** Observing the elements of a mapped array, when the observation does
    not depend on the index, or depends on the index only. *)
Lemma map_from_observe (C : Type) (obs : B -> C) (g : A -> C)
    (f : A -> nat -> B) (l : list A) (i : nat) :
  (forall x k, obs (f x k) = g x) ->
  List.map obs (map_from f i l) = List.map g l.
Proof.
  intros H; revert i; induction l as [|x l IH]; intros i; simpl; [reflexivity|].
  now rewrite H, IH.
Qed.

Lemma map_from_observe_index (C : Type) (obs : B -> C) (g : nat -> C)
    (f : A -> nat -> B) (l : list A) (i : nat) :
  (forall x k, obs (f x k) = g k) ->
  List.map obs (map_from f i l) = List.map g (seq i (List.length l)).
Proof.
  intros H; revert i; induction l as [|x l IH]; intros i; simpl; [reflexivity|].
  now rewrite H, IH.
Qed.

Lemma flat_map_map_from_nil (C : Type) (obs : B -> list C)
    (f : A -> nat -> B) (l : list A) (i : nat) :
  (forall x k, obs (f x k) = []) ->
  flat_map obs (map_from f i l) = [].
Proof.
  intros H; revert i; induction l as [|x l IH]; intros i; simpl; [reflexivity|].
  now rewrite H, IH.
Qed.

Lemma flat_map_map_from (C : Type) (obs : B -> list C) (g : A -> list C)
    (f : A -> nat -> B) (l : list A) (i : nat) :
  (forall x k, obs (f x k) = g x) ->
  flat_map obs (map_from f i l) = flat_map g l.
Proof.
  intros H; revert i; induction l as [|x l IH]; intros i; simpl; [reflexivity|].
  now rewrite H, IH.
Qed.

End MoreArrayFacts.

Lemma firstn_skipn_snoc (A : Type) (l : list A) (x : A) :
  firstn (List.length l) (l ++ [x]) ++ skipn (S (List.length l)) (l ++ [x]) = l.
Proof.
  induction l as [|y l IH]; simpl; [reflexivity|].
  f_equal. exact IH.
Qed.

(* ================================================================= *)
(** ** RecipeGenerator: more about the collector and the requests     *)
(* ================================================================= *)

Section RecipeMore.

Import RecipeGenerator.

Lemma recipe_reachable_trimmed (w : world) :
  reachable w -> Forall trimmed (ingredients (panel w)).
Proof.
  induction 1 as [|w e w' _ IH F].
  - constructor.
  - destruct e; simpl in F.
    + now injection F as <-.
    + now injection F as <-.
    + injection F as <-. unfold addIngredient.
      destruct (truthy (trim (newIngredient (panel w)))) eqn:T; simpl; [|assumption].
      destruct (Array_includes (ingredients (panel w)) (trim (newIngredient (panel w))));
        simpl; [assumption|].
      apply Forall_app. split; [assumption|].
      constructor; [now apply trim_truthy_trimmed | constructor].
    + injection F as <-. simpl. now apply filter_from_Forall.
    + injection F as <-. unfold generateRecipe.
      destruct (List.length (ingredients (panel w)) =? 0); simpl; assumption.
    + destruct (pending w); [discriminate|]. injection F as <-.
      destruct o; simpl; assumption.
Qed.

Lemma recipe_add_rejected (raw : jsstring) (st : state) :
  trim raw = [] \/ In (trim raw) (ingredients st) ->
  add raw st = run st [setNewIngredient raw].
Proof.
  intros H. unfold add, addIngredient. simpl.
  assert (C : truthy (trim raw) && negb (Array_includes (ingredients st) (trim raw)) = false).
  { destruct H as [H|H].
    - now rewrite H.
    - apply includes_In in H. rewrite H. apply andb_false_r. }
  now rewrite C.
Qed.

Lemma recipe_add_then_remove_last (raw : jsstring) (st : state) :
  trim raw <> [] -> ~ In (trim raw) (ingredients st) ->
  ingredients (remove (Z.of_nat (List.length (ingredients st))) (add raw st))
  = ingredients st.
Proof.
  intros Hx Hin. destruct (recipe_add_appends raw st Hx Hin) as [E _].
  rewrite recipe_remove_inside.
  - rewrite E, Nat2Z.id. apply firstn_skipn_snoc.
  - rewrite E, length_app. simpl. lia.
Qed.

Lemma recipe_add_all_order (raws : list jsstring) :
  forall st,
    NoDup (List.map trim raws) ->
    (forall raw, In raw raws -> trim raw <> [] /\ ~ In (trim raw) (ingredients st)) ->
    ingredients (add_all raws st) = ingredients st ++ List.map trim raws.
Proof.
  induction raws as [|raw raws IH]; intros st ND H; simpl.
  - now rewrite app_nil_r.
  - inversion ND as [|x l Hx Hl]; subst.
    destruct (H raw (or_introl eq_refl)) as [Hne Hnin].
    destruct (recipe_add_appends raw st Hne Hnin) as [E _].
    unfold add_all in *. simpl. rewrite IH; [|assumption|].
    + rewrite E, <- app_assoc. reflexivity.
    + intros r Hr. destruct (H r (or_intror Hr)) as [Rne Rnin]. split; [assumption|].
      rewrite E. intros Hin. apply in_app_or in Hin as [Hin|[Hin|[]]]; [contradiction|].
      apply Hx. rewrite Hin. now apply in_map.
Qed.

Lemma recipe_request_keeps_fields (w w' : world) (e : event) :
  is_edit e = false -> fire w e = Some w' ->
  ingredients (panel w') = ingredients (panel w)
  /\ newIngredient (panel w') = newIngredient (panel w)
  /\ dietaryPreferences (panel w') = dietaryPreferences (panel w).
Proof.
  destruct e; simpl; try discriminate; intros _ F.
  - injection F as <-. unfold generateRecipe.
    destruct (List.length (ingredients (panel w)) =? 0); simpl; auto.
  - destruct (pending w); [discriminate|]. injection F as <-.
    destruct o; simpl; auto.
Qed.

Lemma recipe_ui_error_values (w : world) :
  ui_reachable w ->
  error (panel w) = js ""
  \/ error (panel w) = js "Failed to generate recipe. Please try again.".
Proof.
  induction 1 as [|w e w' _ IH En F].
  - now left.
  - destruct (is_edit e) eqn:Ed.
    + destruct (recipe_edit_keeps w e Ed F) as (_ & _ & E & _). now rewrite E.
    + destruct e; try discriminate; simpl in En, F.
      * unfold submit_disabled in En.
        apply negb_true_iff, orb_false_iff in En as [_ HI].
        injection F as <-. unfold generateRecipe. rewrite HI. now left.
      * destruct (pending w); [discriminate|]. injection F as <-.
        destruct o; simpl; [exact IH | now right].
Qed.

Lemma recipe_chip_inside (st : state) (k : nat) (label : jsstring) (e : event) :
  In (k, label, e) (ingredientChips st) ->
  nth_error (ingredients st) k = Some label
  /\ e = RemoveIngredient (Z.of_nat k)
  /\ k < List.length (ingredients st).
Proof.
  intros H. apply map_from_In in H as (j & x & Hj & E). simpl in E.
  injection E as -> -> ->. repeat split; [assumption|].
  apply nth_error_Some. congruence.
Qed.

End RecipeMore.

(* ================================================================= *)
(** ** MenuAnalyzer: more about the collector and the requests        *)
(* ================================================================= *)

Section MenuMore.

Import MenuAnalyzer.

Lemma menu_reachable_trimmed (w : world) :
  reachable w -> Forall trimmed (menuItems (panel w)).
Proof.
  induction 1 as [|w e w' _ IH F].
  - constructor.
  - destruct e; simpl in F.
    + now injection F as <-.
    + now injection F as <-.
    + injection F as <-. unfold addMenuItem.
      destruct (truthy (trim (newMenuItem (panel w)))) eqn:T; simpl; [|assumption].
      destruct (Array_includes (menuItems (panel w)) (trim (newMenuItem (panel w))));
        simpl; [assumption|].
      apply Forall_app. split; [assumption|].
      constructor; [now apply trim_truthy_trimmed | constructor].
    + injection F as <-. simpl. now apply filter_from_Forall.
    + injection F as <-. unfold analyzeMenu.
      destruct (List.length (menuItems (panel w)) =? 0); simpl; assumption.
    + destruct (pending w); [discriminate|]. injection F as <-.
      destruct o; simpl; assumption.
Qed.

Lemma menu_add_rejected (raw : jsstring) (st : state) :
  trim raw = [] \/ In (trim raw) (menuItems st) ->
  add raw st = run st [setNewMenuItem raw].
Proof.
  intros H. unfold add, addMenuItem. simpl.
  assert (C : truthy (trim raw) && negb (Array_includes (menuItems st) (trim raw)) = false).
  { destruct H as [H|H].
    - now rewrite H.
    - apply includes_In in H. rewrite H. apply andb_false_r. }
  now rewrite C.
Qed.

Lemma menu_add_then_remove_last (raw : jsstring) (st : state) :
  trim raw <> [] -> ~ In (trim raw) (menuItems st) ->
  menuItems (remove (Z.of_nat (List.length (menuItems st))) (add raw st))
  = menuItems st.
Proof.
  intros Hx Hin. destruct (menu_add_appends raw st Hx Hin) as [E _].
  rewrite menu_remove_inside.
  - rewrite E, Nat2Z.id. apply firstn_skipn_snoc.
  - rewrite E, length_app. simpl. lia.
Qed.

Lemma menu_add_all_order (raws : list jsstring) :
  forall st,
    NoDup (List.map trim raws) ->
    (forall raw, In raw raws -> trim raw <> [] /\ ~ In (trim raw) (menuItems st)) ->
    menuItems (add_all raws st) = menuItems st ++ List.map trim raws.
Proof.
  induction raws as [|raw raws IH]; intros st ND H; simpl.
  - now rewrite app_nil_r.
  - inversion ND as [|x l Hx Hl]; subst.
    destruct (H raw (or_introl eq_refl)) as [Hne Hnin].
    destruct (menu_add_appends raw st Hne Hnin) as [E _].
    unfold add_all in *. simpl. rewrite IH; [|assumption|].
    + rewrite E, <- app_assoc. reflexivity.
    + intros r Hr. destruct (H r (or_intror Hr)) as [Rne Rnin]. split; [assumption|].
      rewrite E. intros Hin. apply in_app_or in Hin as [Hin|[Hin|[]]]; [contradiction|].
      apply Hx. rewrite Hin. now apply in_map.
Qed.

Lemma menu_request_keeps_fields (w w' : world) (e : event) :
  is_edit e = false -> fire w e = Some w' ->
  menuItems (panel w') = menuItems (panel w)
  /\ newMenuItem (panel w') = newMenuItem (panel w)
  /\ restaurantName (panel w') = restaurantName (panel w).
Proof.
  destruct e; simpl; try discriminate; intros _ F.
  - injection F as <-. unfold analyzeMenu.
    destruct (List.length (menuItems (panel w)) =? 0); simpl; auto.
  - destruct (pending w); [discriminate|]. injection F as <-.
    destruct o; simpl; auto.
Qed.

Lemma menu_ui_error_values (w : world) :
  ui_reachable w ->
  error (panel w) = js ""
  \/ error (panel w) = js "Failed to analyze menu. Please try again.".
Proof.
  induction 1 as [|w e w' _ IH En F].
  - now left.
  - destruct (is_edit e) eqn:Ed.
    + destruct (menu_edit_keeps w e Ed F) as (_ & _ & E & _). now rewrite E.
    + destruct e; try discriminate; simpl in En, F.
      * unfold submit_disabled in En.
        apply negb_true_iff, orb_false_iff in En as [_ HI].
        injection F as <-. unfold analyzeMenu. rewrite HI. now left.
      * destruct (pending w); [discriminate|]. injection F as <-.
        destruct o; simpl; [exact IH | now right].
Qed.

Lemma menu_chip_inside (st : state) (k : nat) (label : jsstring) (e : event) :
  In (k, label, e) (menuItemChips st) ->
  nth_error (menuItems st) k = Some label
  /\ e = RemoveMenuItem (Z.of_nat k)
  /\ k < List.length (menuItems st).
Proof.
  intros H. apply map_from_In in H as (j & x & Hj & E). simpl in E.
  injection E as -> -> ->. repeat split; [assumption|].
  apply nth_error_Some. congruence.
Qed.

End MenuMore.

(* ================================================================= *)
(** ** Further properties of the collector                            *)
(* ================================================================= *)

(** X1: whatever handlers ran, in whatever order, the collection holds no
    item twice, and every item in it is non-empty and free of white space
    at both ends. *)
Theorem reachable_collection_is_clean
    (w : RecipeGenerator.world) (mw : MenuAnalyzer.world) :
  (RecipeGenerator.reachable w ->
   NoDup (RecipeGenerator.ingredients (RecipeGenerator.panel w))
   /\ Forall trimmed (RecipeGenerator.ingredients (RecipeGenerator.panel w)))
  /\
  (MenuAnalyzer.reachable mw ->
   NoDup (MenuAnalyzer.menuItems (MenuAnalyzer.panel mw))
   /\ Forall trimmed (MenuAnalyzer.menuItems (MenuAnalyzer.panel mw))).
Proof.
  split; intros R.
  - split; [now apply recipe_reachable_NoDup | now apply recipe_reachable_trimmed].
  - split; [now apply menu_reachable_NoDup | now apply menu_reachable_trimmed].
Qed.

Lemma reachable_collection_is_clean_witness :
  (NoDup [js "egg"; js "rice"] /\ Forall trimmed [js "egg"; js "rice"])
  /\ (NoDup [js "soup"] /\ Forall trimmed [js "soup"]).
Proof.
  pose (w := {| RecipeGenerator.panel :=
                  RecipeGenerator.add (js "egg ")
                    (RecipeGenerator.add (js " rice")
                       (RecipeGenerator.add (js " egg") RecipeGenerator.initial));
                RecipeGenerator.pending := 0 |}).
  pose (mw := {| MenuAnalyzer.panel :=
                   MenuAnalyzer.add (js "soup")
                     (MenuAnalyzer.add (js " soup ") MenuAnalyzer.initial);
                 MenuAnalyzer.pending := 0 |}).
  destruct (reachable_collection_is_clean w mw) as [HR HM].
  split.
  - apply HR.
    apply recipe_fire_all_reachable with
      (es := [ RecipeGenerator.TypeIngredient (js " egg"); RecipeGenerator.AddIngredient;
               RecipeGenerator.TypeIngredient (js " rice"); RecipeGenerator.AddIngredient;
               RecipeGenerator.TypeIngredient (js "egg "); RecipeGenerator.AddIngredient ])
      (w := RecipeGenerator.start);
      [apply RecipeGenerator.reachable_start | vm_compute; reflexivity].
  - apply HM.
    apply menu_fire_all_reachable with
      (es := [ MenuAnalyzer.TypeMenuItem (js " soup "); MenuAnalyzer.AddMenuItem;
               MenuAnalyzer.TypeMenuItem (js "soup"); MenuAnalyzer.AddMenuItem ])
      (w := MenuAnalyzer.start);
      [apply MenuAnalyzer.reachable_start | vm_compute; reflexivity].
Defined.

(** X2: when adding is refused (the trimmed text is empty or already
    listed), nothing but the input field changes: the text typed stays in
    the field, as typed. *)
Theorem refused_add_keeps_typed_text
    (raw : jsstring) (st : RecipeGenerator.state) (mst : MenuAnalyzer.state) :
  (trim raw = [] \/ In (trim raw) (RecipeGenerator.ingredients st) ->
   RecipeGenerator.add raw st
   = RecipeGenerator.run st [RecipeGenerator.setNewIngredient raw]
   /\ RecipeGenerator.newIngredient (RecipeGenerator.add raw st) = raw)
  /\
  (trim raw = [] \/ In (trim raw) (MenuAnalyzer.menuItems mst) ->
   MenuAnalyzer.add raw mst
   = MenuAnalyzer.run mst [MenuAnalyzer.setNewMenuItem raw]
   /\ MenuAnalyzer.newMenuItem (MenuAnalyzer.add raw mst) = raw).
Proof.
  split; intros H.
  - rewrite (recipe_add_rejected raw st H). split; reflexivity.
  - rewrite (menu_add_rejected raw mst H). split; reflexivity.
Qed.

Lemma refused_add_keeps_typed_text_witness :
  RecipeGenerator.newIngredient
    (RecipeGenerator.add (js " egg ") (RecipeGenerator.add (js "egg") RecipeGenerator.initial))
  = js " egg "
  /\ MenuAnalyzer.newMenuItem (MenuAnalyzer.add (js "   ") MenuAnalyzer.initial)
     = js "   ".
Proof.
  destruct (refused_add_keeps_typed_text (js " egg ")
              (RecipeGenerator.add (js "egg") RecipeGenerator.initial)
              (MenuAnalyzer.add (js "egg") MenuAnalyzer.initial)) as [HR _].
  destruct (refused_add_keeps_typed_text (js "   ")
              RecipeGenerator.initial MenuAnalyzer.initial) as [_ HM].
  split.
  - refine (proj2 (HR _)). right. vm_compute. now left.
  - exact (proj2 (HM (or_introl eq_refl))).
Defined.

(** X3: removing at the last position right after an accepted add gives
    back the collection as it was before the add. *)
Theorem add_then_remove_last_restores
    (raw : jsstring) (st : RecipeGenerator.state) (mst : MenuAnalyzer.state) :
  (trim raw <> [] -> ~ In (trim raw) (RecipeGenerator.ingredients st) ->
   RecipeGenerator.ingredients
     (RecipeGenerator.remove
        (Z.of_nat (List.length (RecipeGenerator.ingredients st)))
        (RecipeGenerator.add raw st))
   = RecipeGenerator.ingredients st)
  /\
  (trim raw <> [] -> ~ In (trim raw) (MenuAnalyzer.menuItems mst) ->
   MenuAnalyzer.menuItems
     (MenuAnalyzer.remove
        (Z.of_nat (List.length (MenuAnalyzer.menuItems mst)))
        (MenuAnalyzer.add raw mst))
   = MenuAnalyzer.menuItems mst).
Proof.
  split.
  - apply recipe_add_then_remove_last.
  - apply menu_add_then_remove_last.
Qed.

Lemma add_then_remove_last_restores_witness :
  RecipeGenerator.ingredients
    (RecipeGenerator.remove 1
       (RecipeGenerator.add (js " salt")
          (RecipeGenerator.add (js "egg") RecipeGenerator.initial)))
  = [js "egg"]
  /\
  MenuAnalyzer.menuItems
    (MenuAnalyzer.remove 1
       (MenuAnalyzer.add (js " salt")
          (MenuAnalyzer.add (js "egg") MenuAnalyzer.initial)))
  = [js "egg"].
Proof.
  destruct (add_then_remove_last_restores (js " salt")
              (RecipeGenerator.add (js "egg") RecipeGenerator.initial)
              (MenuAnalyzer.add (js "egg") MenuAnalyzer.initial)) as [HR HM].
  split.
  - apply HR; [vm_compute; discriminate|].
    vm_compute. intros [H|[]]; discriminate.
  - apply HM; [vm_compute; discriminate|].
    vm_compute. intros [H|[]]; discriminate.
Defined.

(** X4: adding strings whose trimmed forms are non-empty, pairwise
    different and not yet listed appends exactly these trimmed forms, in
    the order they were added. *)
Theorem adds_keep_insertion_order
    (raws : list jsstring) (st : RecipeGenerator.state) (mst : MenuAnalyzer.state) :
  (NoDup (List.map trim raws) ->
   (forall raw, In raw raws ->
      trim raw <> [] /\ ~ In (trim raw) (RecipeGenerator.ingredients st)) ->
   RecipeGenerator.ingredients (RecipeGenerator.add_all raws st)
   = RecipeGenerator.ingredients st ++ List.map trim raws)
  /\
  (NoDup (List.map trim raws) ->
   (forall raw, In raw raws ->
      trim raw <> [] /\ ~ In (trim raw) (MenuAnalyzer.menuItems mst)) ->
   MenuAnalyzer.menuItems (MenuAnalyzer.add_all raws mst)
   = MenuAnalyzer.menuItems mst ++ List.map trim raws).
Proof.
  split.
  - apply recipe_add_all_order.
  - apply menu_add_all_order.
Qed.

Lemma adds_keep_insertion_order_witness :
  RecipeGenerator.ingredients
    (RecipeGenerator.add_all [js " rice"; js "egg "; js "salt"] RecipeGenerator.initial)
  = [js "rice"; js "egg"; js "salt"]
  /\
  MenuAnalyzer.menuItems
    (MenuAnalyzer.add_all [js " rice"; js "egg "; js "salt"] MenuAnalyzer.initial)
  = [js "rice"; js "egg"; js "salt"].
Proof.
  destruct (adds_keep_insertion_order [js " rice"; js "egg "; js "salt"]
              RecipeGenerator.initial MenuAnalyzer.initial) as [HR HM].
  assert (ND : NoDup (List.map trim [js " rice"; js "egg "; js "salt"])).
  { vm_compute. repeat constructor; simpl; intuition discriminate. }
  assert (NE : forall raw, In raw [js " rice"; js "egg "; js "salt"] ->
                 trim raw <> [] /\ ~ In (trim raw) []).
  { intros raw [<-|[<-|[<-|[]]]]; (split; [vm_compute; discriminate | simpl; tauto]). }
  split.
  - exact (HR ND NE).
  - exact (HM ND NE).
Defined.

(* ================================================================= *)
(** ** Further properties of submitting                               *)
(* ================================================================= *)

(** X5: typing, adding and removing always go through, send nothing and
    leave result, error message, loading flag, and so the status, as they
    were. *)
Theorem edits_leave_display_alone
    (w : RecipeGenerator.world) (e : RecipeGenerator.event)
    (mw : MenuAnalyzer.world) (me : MenuAnalyzer.event) :
  (RecipeGenerator.is_edit e = true ->
   exists w',
     RecipeGenerator.fire w e = Some w'
     /\ RecipeGenerator.recipe (RecipeGenerator.panel w')
        = RecipeGenerator.recipe (RecipeGenerator.panel w)
     /\ RecipeGenerator.error (RecipeGenerator.panel w')
        = RecipeGenerator.error (RecipeGenerator.panel w)
     /\ RecipeGenerator.loading (RecipeGenerator.panel w')
        = RecipeGenerator.loading (RecipeGenerator.panel w)
     /\ RecipeGenerator.status_of (RecipeGenerator.panel w')
        = RecipeGenerator.status_of (RecipeGenerator.panel w)
     /\ RecipeGenerator.pending w' = RecipeGenerator.pending w)
  /\
  (MenuAnalyzer.is_edit me = true ->
   exists mw',
     MenuAnalyzer.fire mw me = Some mw'
     /\ MenuAnalyzer.analysis (MenuAnalyzer.panel mw')
        = MenuAnalyzer.analysis (MenuAnalyzer.panel mw)
     /\ MenuAnalyzer.error (MenuAnalyzer.panel mw')
        = MenuAnalyzer.error (MenuAnalyzer.panel mw)
     /\ MenuAnalyzer.loading (MenuAnalyzer.panel mw')
        = MenuAnalyzer.loading (MenuAnalyzer.panel mw)
     /\ MenuAnalyzer.status_of (MenuAnalyzer.panel mw')
        = MenuAnalyzer.status_of (MenuAnalyzer.panel mw)
     /\ MenuAnalyzer.pending mw' = MenuAnalyzer.pending mw).
Proof.
  split; intros Ed.
  - assert (H : forallb RecipeGenerator.is_edit [e] = true) by (simpl; now rewrite Ed).
    destruct (recipe_edits_keep [e] H w) as (w' & F & R & L & E & P).
    simpl in F. destruct (RecipeGenerator.fire w e) as [w1|]; [|discriminate].
    injection F as ->. exists w'. unfold RecipeGenerator.status_of.
    rewrite R, L, E. repeat split; assumption.
  - assert (H : forallb MenuAnalyzer.is_edit [me] = true) by (simpl; now rewrite Ed).
    destruct (menu_edits_keep [me] H mw) as (w' & F & R & L & E & P).
    simpl in F. destruct (MenuAnalyzer.fire mw me) as [w1|]; [|discriminate].
    injection F as ->. exists w'. unfold MenuAnalyzer.status_of.
    rewrite R, L, E. repeat split; assumption.
Qed.

Lemma edits_leave_display_alone_witness :
  (exists w',
     RecipeGenerator.fire
       {| RecipeGenerator.panel :=
            RecipeGenerator.run (RecipeGenerator.add (js "egg") RecipeGenerator.initial)
              [RecipeGenerator.setRecipe (Some RecipeGenerator.veggie_stir_fry)];
          RecipeGenerator.pending := 0 |}
       (RecipeGenerator.RemoveIngredient 0) = Some w'
     /\ RecipeGenerator.recipe (RecipeGenerator.panel w')
        = Some RecipeGenerator.veggie_stir_fry
     /\ RecipeGenerator.status_of (RecipeGenerator.panel w') = Success)
  /\
  (exists mw',
     MenuAnalyzer.fire
       {| MenuAnalyzer.panel :=
            MenuAnalyzer.run MenuAnalyzer.initial
              [MenuAnalyzer.setError (js "Failed to analyze menu. Please try again.")];
          MenuAnalyzer.pending := 0 |}
       (MenuAnalyzer.TypeMenuItem (js "soup")) = Some mw'
     /\ MenuAnalyzer.error (MenuAnalyzer.panel mw')
        = js "Failed to analyze menu. Please try again."
     /\ MenuAnalyzer.status_of (MenuAnalyzer.panel mw') = Error).
Proof.
  destruct (edits_leave_display_alone
              {| RecipeGenerator.panel :=
                   RecipeGenerator.run
                     (RecipeGenerator.add (js "egg") RecipeGenerator.initial)
                     [RecipeGenerator.setRecipe (Some RecipeGenerator.veggie_stir_fry)];
                 RecipeGenerator.pending := 0 |}
              (RecipeGenerator.RemoveIngredient 0)
              {| MenuAnalyzer.panel :=
                   MenuAnalyzer.run MenuAnalyzer.initial
                     [MenuAnalyzer.setError (js "Failed to analyze menu. Please try again.")];
                 MenuAnalyzer.pending := 0 |}
              (MenuAnalyzer.TypeMenuItem (js "soup"))) as [HR HM].
  split.
  - destruct (HR eq_refl) as (w' & F & R & _ & _ & S & _).
    exists w'. repeat split; assumption.
  - destruct (HM eq_refl) as (w' & F & _ & E & _ & S & _).
    exists w'. repeat split; assumption.
Defined.

(** X6: a submission from a non-empty collection whose request is
    fulfilled, whatever the user edits meanwhile, stores [response.data]
    unchecked.  When the data is an object of the response interface the
    panel ends with status success and that object as result; when the
    data is falsy (the body was [null] or empty) the panel ends idle, with
    no result.  In both cases the error message is empty and the loading
    flag cleared. *)
Theorem fulfilled_submit_shows_result
    (data : option RecipeResponse.t) (mdata : option MenuAnalysisResponse.t)
    (w : RecipeGenerator.world) (es : list RecipeGenerator.event)
    (mw : MenuAnalyzer.world) (mes : list MenuAnalyzer.event) :
  (RecipeGenerator.ingredients (RecipeGenerator.panel w) <> [] ->
   forallb RecipeGenerator.is_edit es = true ->
   exists w',
     RecipeGenerator.fire_all w
       (RecipeGenerator.GenerateRecipe :: es
        ++ [RecipeGenerator.Settle (RecipeGenerator.Fulfilled data)]) = Some w'
     /\ RecipeGenerator.recipe (RecipeGenerator.panel w') = data
     /\ RecipeGenerator.status_of (RecipeGenerator.panel w')
        = match data with Some _ => Success | None => Idle end
     /\ RecipeGenerator.error (RecipeGenerator.panel w') = js ""
     /\ RecipeGenerator.loading (RecipeGenerator.panel w') = false)
  /\
  (MenuAnalyzer.menuItems (MenuAnalyzer.panel mw) <> [] ->
   forallb MenuAnalyzer.is_edit mes = true ->
   exists mw',
     MenuAnalyzer.fire_all mw
       (MenuAnalyzer.AnalyzeMenu :: mes
        ++ [MenuAnalyzer.Settle (MenuAnalyzer.Fulfilled mdata)]) = Some mw'
     /\ MenuAnalyzer.analysis (MenuAnalyzer.panel mw') = mdata
     /\ MenuAnalyzer.status_of (MenuAnalyzer.panel mw')
        = match mdata with Some _ => Success | None => Idle end
     /\ MenuAnalyzer.error (MenuAnalyzer.panel mw') = js ""
     /\ MenuAnalyzer.loading (MenuAnalyzer.panel mw') = false).
Proof.
  split; intros Hne Hed.
  - destruct (recipe_fulfilled_submit data w es Hne Hed) as (w' & F & R & E & L).
    exists w'. unfold RecipeGenerator.status_of. rewrite R, E, L.
    split; [exact F|]. split; [reflexivity|].
    split; [now destruct data|]. split; reflexivity.
  - destruct (menu_fulfilled_submit mdata mw mes Hne Hed) as (w' & F & R & E & L).
    exists w'. unfold MenuAnalyzer.status_of. rewrite R, E, L.
    split; [exact F|]. split; [reflexivity|].
    split; [now destruct mdata|]. split; reflexivity.
Qed.

Lemma fulfilled_submit_shows_result_witness :
  (exists w',
     RecipeGenerator.fire_all
       {| RecipeGenerator.panel :=
            RecipeGenerator.run (RecipeGenerator.add (js "rice") RecipeGenerator.initial)
              [RecipeGenerator.setError (js "Failed to generate recipe. Please try again.")];
          RecipeGenerator.pending := 0 |}
       (RecipeGenerator.GenerateRecipe
        :: [RecipeGenerator.RemoveIngredient 0]
        ++ [RecipeGenerator.Settle
              (RecipeGenerator.Fulfilled (Some RecipeGenerator.veggie_stir_fry))])
     = Some w'
     /\ RecipeGenerator.recipe (RecipeGenerator.panel w')
        = Some RecipeGenerator.veggie_stir_fry
     /\ RecipeGenerator.status_of (RecipeGenerator.panel w') = Success
     /\ RecipeGenerator.error (RecipeGenerator.panel w') = js ""
     /\ RecipeGenerator.loading (RecipeGenerator.panel w') = false)
  /\
  (exists mw',
     MenuAnalyzer.fire_all
       {| MenuAnalyzer.panel := MenuAnalyzer.add (js "soup") MenuAnalyzer.initial;
          MenuAnalyzer.pending := 0 |}
       (MenuAnalyzer.AnalyzeMenu
        :: [MenuAnalyzer.TypeRestaurant (js "Chez Nous")]
        ++ [MenuAnalyzer.Settle (MenuAnalyzer.Fulfilled None)])
     = Some mw'
     /\ MenuAnalyzer.analysis (MenuAnalyzer.panel mw') = None
     /\ MenuAnalyzer.status_of (MenuAnalyzer.panel mw') = Idle
     /\ MenuAnalyzer.error (MenuAnalyzer.panel mw') = js ""
     /\ MenuAnalyzer.loading (MenuAnalyzer.panel mw') = false).
Proof.
  destruct (fulfilled_submit_shows_result
              (Some RecipeGenerator.veggie_stir_fry) None
              {| RecipeGenerator.panel :=
                   RecipeGenerator.run
                     (RecipeGenerator.add (js "rice") RecipeGenerator.initial)
                     [RecipeGenerator.setError
                        (js "Failed to generate recipe. Please try again.")];
                 RecipeGenerator.pending := 0 |}
              [RecipeGenerator.RemoveIngredient 0]
              {| MenuAnalyzer.panel := MenuAnalyzer.add (js "soup") MenuAnalyzer.initial;
                 MenuAnalyzer.pending := 0 |}
              [MenuAnalyzer.TypeRestaurant (js "Chez Nous")]) as [HR HM].
  split.
  - apply HR; [vm_compute; discriminate | reflexivity].
  - apply HM; [vm_compute; discriminate | reflexivity].
Defined.

(** X7: submitting and the settling of the request never touch the
    collection, the pending input or the modifier field; in particular a
    successful submission does not empty the collection. *)
Theorem requests_leave_fields_alone
    (w w' : RecipeGenerator.world) (e : RecipeGenerator.event)
    (mw mw' : MenuAnalyzer.world) (me : MenuAnalyzer.event) :
  (RecipeGenerator.is_edit e = false -> RecipeGenerator.fire w e = Some w' ->
   RecipeGenerator.ingredients (RecipeGenerator.panel w')
   = RecipeGenerator.ingredients (RecipeGenerator.panel w)
   /\ RecipeGenerator.newIngredient (RecipeGenerator.panel w')
      = RecipeGenerator.newIngredient (RecipeGenerator.panel w)
   /\ RecipeGenerator.dietaryPreferences (RecipeGenerator.panel w')
      = RecipeGenerator.dietaryPreferences (RecipeGenerator.panel w))
  /\
  (MenuAnalyzer.is_edit me = false -> MenuAnalyzer.fire mw me = Some mw' ->
   MenuAnalyzer.menuItems (MenuAnalyzer.panel mw')
   = MenuAnalyzer.menuItems (MenuAnalyzer.panel mw)
   /\ MenuAnalyzer.newMenuItem (MenuAnalyzer.panel mw')
      = MenuAnalyzer.newMenuItem (MenuAnalyzer.panel mw)
   /\ MenuAnalyzer.restaurantName (MenuAnalyzer.panel mw')
      = MenuAnalyzer.restaurantName (MenuAnalyzer.panel mw)).
Proof.
  split.
  - apply recipe_request_keeps_fields.
  - apply menu_request_keeps_fields.
Qed.

Lemma requests_leave_fields_alone_witness :
  RecipeGenerator.ingredients
    (RecipeGenerator.run (RecipeGenerator.add (js "rice") RecipeGenerator.initial)
       (RecipeGenerator.generateRecipe_settled
          (RecipeGenerator.Fulfilled (Some RecipeGenerator.veggie_stir_fry))))
  = [js "rice"]
  /\
  MenuAnalyzer.menuItems
    (MenuAnalyzer.run (MenuAnalyzer.add (js "soup") MenuAnalyzer.initial)
       (MenuAnalyzer.analyzeMenu (MenuAnalyzer.add (js "soup") MenuAnalyzer.initial)))
  = [js "soup"].
Proof.
  destruct (requests_leave_fields_alone
              {| RecipeGenerator.panel :=
                   RecipeGenerator.add (js "rice") RecipeGenerator.initial;
                 RecipeGenerator.pending := 1 |}
              {| RecipeGenerator.panel :=
                   RecipeGenerator.run
                     (RecipeGenerator.add (js "rice") RecipeGenerator.initial)
                     (RecipeGenerator.generateRecipe_settled
                        (RecipeGenerator.Fulfilled (Some RecipeGenerator.veggie_stir_fry)));
                 RecipeGenerator.pending := 0 |}
              (RecipeGenerator.Settle
                 (RecipeGenerator.Fulfilled (Some RecipeGenerator.veggie_stir_fry)))
              {| MenuAnalyzer.panel := MenuAnalyzer.add (js "soup") MenuAnalyzer.initial;
                 MenuAnalyzer.pending := 0 |}
              {| MenuAnalyzer.panel :=
                   MenuAnalyzer.run (MenuAnalyzer.add (js "soup") MenuAnalyzer.initial)
                     (MenuAnalyzer.analyzeMenu
                        (MenuAnalyzer.add (js "soup") MenuAnalyzer.initial));
                 MenuAnalyzer.pending := 1 |}
              MenuAnalyzer.AnalyzeMenu) as [HR HM].
  split.
  - exact (proj1 (HR eq_refl eq_refl)).
  - exact (proj1 (HM eq_refl eq_refl)).
Defined.

(** X8: through the controls as rendered at most one request is in
    flight, and one is in flight exactly while the loading flag is set;
    during that time no result and no error message are displayed and the
    submit button is disabled. *)
Theorem ui_one_request_in_flight
    (w : RecipeGenerator.world) (mw : MenuAnalyzer.world) :
  (RecipeGenerator.ui_reachable w ->
   RecipeGenerator.pending w <= 1
   /\ (RecipeGenerator.loading (RecipeGenerator.panel w) = true
       <-> RecipeGenerator.pending w = 1)
   /\ (RecipeGenerator.pending w = 1 ->
       RecipeGenerator.recipe (RecipeGenerator.panel w) = None
       /\ RecipeGenerator.error (RecipeGenerator.panel w) = js ""
       /\ RecipeGenerator.enabled w RecipeGenerator.GenerateRecipe = false))
  /\
  (MenuAnalyzer.ui_reachable mw ->
   MenuAnalyzer.pending mw <= 1
   /\ (MenuAnalyzer.loading (MenuAnalyzer.panel mw) = true
       <-> MenuAnalyzer.pending mw = 1)
   /\ (MenuAnalyzer.pending mw = 1 ->
       MenuAnalyzer.analysis (MenuAnalyzer.panel mw) = None
       /\ MenuAnalyzer.error (MenuAnalyzer.panel mw) = js ""
       /\ MenuAnalyzer.enabled mw MenuAnalyzer.AnalyzeMenu = false)).
Proof.
  split; intros R.
  - apply recipe_ui_consistent in R. unfold RecipeGenerator.consistent in R.
    unfold RecipeGenerator.enabled, RecipeGenerator.submit_disabled.
    destruct (RecipeGenerator.loading (RecipeGenerator.panel w)).
    + destruct R as (P & E & N). rewrite P, E, N. repeat split; auto.
    + destruct R as (P & _). rewrite P. repeat split; try discriminate; auto.
  - apply menu_ui_consistent in R. unfold MenuAnalyzer.consistent in R.
    unfold MenuAnalyzer.enabled, MenuAnalyzer.submit_disabled.
    destruct (MenuAnalyzer.loading (MenuAnalyzer.panel mw)).
    + destruct R as (P & E & N). rewrite P, E, N. repeat split; auto.
    + destruct R as (P & _). rewrite P. repeat split; try discriminate; auto.
Qed.

Lemma ui_one_request_in_flight_witness :
  (exists w,
     RecipeGenerator.ui_fire_all RecipeGenerator.start
       [ RecipeGenerator.TypeIngredient (js "rice"); RecipeGenerator.AddIngredient;
         RecipeGenerator.GenerateRecipe; RecipeGenerator.TypeIngredient (js "salt");
         RecipeGenerator.AddIngredient ] = Some w
     /\ RecipeGenerator.pending w <= 1
     /\ RecipeGenerator.enabled w RecipeGenerator.GenerateRecipe = false)
  /\
  (exists mw,
     MenuAnalyzer.ui_fire_all MenuAnalyzer.start
       [ MenuAnalyzer.TypeMenuItem (js "soup"); MenuAnalyzer.AddMenuItem;
         MenuAnalyzer.AnalyzeMenu ] = Some mw
     /\ MenuAnalyzer.pending mw <= 1
     /\ MenuAnalyzer.enabled mw MenuAnalyzer.AnalyzeMenu = false).
Proof.
  split.
  - eexists. split; [vm_compute; reflexivity|].
    match goal with
    | |- RecipeGenerator.pending ?w <= 1 /\ _ =>
        destruct (ui_one_request_in_flight w MenuAnalyzer.start) as [HR _];
        destruct HR as (P & _ & D)
    end.
    + apply recipe_ui_fire_all_reachable with
        (es := [ RecipeGenerator.TypeIngredient (js "rice"); RecipeGenerator.AddIngredient;
                 RecipeGenerator.GenerateRecipe; RecipeGenerator.TypeIngredient (js "salt");
                 RecipeGenerator.AddIngredient ])
        (w := RecipeGenerator.start);
        [apply RecipeGenerator.ui_start | vm_compute; reflexivity].
    + split; [exact P | exact (proj2 (proj2 (D eq_refl)))].
  - eexists. split; [vm_compute; reflexivity|].
    match goal with
    | |- MenuAnalyzer.pending ?w <= 1 /\ _ =>
        destruct (ui_one_request_in_flight RecipeGenerator.start w) as [_ HM];
        destruct HM as (P & _ & D)
    end.
    + apply menu_ui_fire_all_reachable with
        (es := [ MenuAnalyzer.TypeMenuItem (js "soup"); MenuAnalyzer.AddMenuItem;
                 MenuAnalyzer.AnalyzeMenu ])
        (w := MenuAnalyzer.start);
        [apply MenuAnalyzer.ui_start | vm_compute; reflexivity].
    + split; [exact P | exact (proj2 (proj2 (D eq_refl)))].
Defined.

(** X9: through the controls as rendered the error message is either
    empty or the fixed failure message of the panel; the validation
    message of the submit handler is never displayed, since the button
    that would run the handler is disabled while the collection is
    empty. *)
Theorem ui_never_shows_validation_message
    (w : RecipeGenerator.world) (mw : MenuAnalyzer.world) :
  (RecipeGenerator.ui_reachable w ->
   (RecipeGenerator.error (RecipeGenerator.panel w) = js ""
    \/ RecipeGenerator.error (RecipeGenerator.panel w)
       = js "Failed to generate recipe. Please try again.")
   /\ RecipeGenerator.error (RecipeGenerator.panel w)
      <> js "Please add at least one ingredient")
  /\
  (MenuAnalyzer.ui_reachable mw ->
   (MenuAnalyzer.error (MenuAnalyzer.panel mw) = js ""
    \/ MenuAnalyzer.error (MenuAnalyzer.panel mw)
       = js "Failed to analyze menu. Please try again.")
   /\ MenuAnalyzer.error (MenuAnalyzer.panel mw)
      <> js "Please add at least one menu item").
Proof.
  split; intros R.
  - pose proof (recipe_ui_error_values R) as V. split; [exact V|].
    destruct V as [-> | ->]; vm_compute; discriminate.
  - pose proof (menu_ui_error_values R) as V. split; [exact V|].
    destruct V as [-> | ->]; vm_compute; discriminate.
Qed.

Lemma ui_never_shows_validation_message_witness :
  (exists w,
     RecipeGenerator.ui_fire_all RecipeGenerator.start
       [ RecipeGenerator.TypeIngredient (js "rice"); RecipeGenerator.AddIngredient;
         RecipeGenerator.GenerateRecipe;
         RecipeGenerator.Settle (RecipeGenerator.Rejected NetworkError);
         RecipeGenerator.RemoveIngredient 0 ] = Some w
     /\ RecipeGenerator.error (RecipeGenerator.panel w)
        <> js "Please add at least one ingredient")
  /\
  (exists mw,
     MenuAnalyzer.ui_fire_all MenuAnalyzer.start
       [ MenuAnalyzer.TypeMenuItem (js "soup"); MenuAnalyzer.AddMenuItem;
         MenuAnalyzer.RemoveMenuItem 0 ] = Some mw
     /\ MenuAnalyzer.error (MenuAnalyzer.panel mw)
        <> js "Please add at least one menu item").
Proof.
  split.
  - eexists. split; [vm_compute; reflexivity|].
    match goal with
    | |- RecipeGenerator.error (RecipeGenerator.panel ?w) <> _ =>
        refine (proj2 (proj1 (ui_never_shows_validation_message w MenuAnalyzer.start) _))
    end.
    apply recipe_ui_fire_all_reachable with
      (es := [ RecipeGenerator.TypeIngredient (js "rice"); RecipeGenerator.AddIngredient;
               RecipeGenerator.GenerateRecipe;
               RecipeGenerator.Settle (RecipeGenerator.Rejected NetworkError);
               RecipeGenerator.RemoveIngredient 0 ])
      (w := RecipeGenerator.start);
      [apply RecipeGenerator.ui_start | vm_compute; reflexivity].
  - eexists. split; [vm_compute; reflexivity|].
    match goal with
    | |- MenuAnalyzer.error (MenuAnalyzer.panel ?w) <> _ =>
        refine (proj2 (proj2 (ui_never_shows_validation_message RecipeGenerator.start w) _))
    end.
    apply menu_ui_fire_all_reachable with
      (es := [ MenuAnalyzer.TypeMenuItem (js "soup"); MenuAnalyzer.AddMenuItem;
               MenuAnalyzer.RemoveMenuItem 0 ])
      (w := MenuAnalyzer.start);
      [apply MenuAnalyzer.ui_start | vm_compute; reflexivity].
Defined.

(** X10: a modifier field that is not the empty string goes out exactly
    as typed, untrimmed, even when it is white space only; the default
    name of the menu panel is used for the empty string alone. *)
Theorem nonblank_modifier_sent_verbatim
    (st : RecipeGenerator.state) (mst : MenuAnalyzer.state) :
  (RecipeGenerator.ingredients st <> [] ->
   RecipeGenerator.dietaryPreferences st <> js "" ->
   exists url body,
     RecipeGenerator.posts (RecipeGenerator.generateRecipe st) = [(url, body)]
     /\ get "dietary_preferences" body
        = Some (JString (RecipeGenerator.dietaryPreferences st)))
  /\
  (MenuAnalyzer.menuItems mst <> [] ->
   MenuAnalyzer.restaurantName mst <> js "" ->
   exists url body,
     MenuAnalyzer.posts (MenuAnalyzer.analyzeMenu mst) = [(url, body)]
     /\ get "restaurant_name" body
        = Some (JString (MenuAnalyzer.restaurantName mst))).
Proof.
  split; intros Hne Hmod.
  - rewrite (recipe_submit_nonempty st Hne). simpl.
    apply truthy_true in Hmod. unfold or_else. rewrite Hmod.
    eexists; eexists; split; reflexivity.
  - rewrite (menu_submit_nonempty mst Hne). simpl.
    apply truthy_true in Hmod. unfold or_else. rewrite Hmod.
    eexists; eexists; split; reflexivity.
Qed.

Lemma nonblank_modifier_sent_verbatim_witness :
  (exists url body,
     RecipeGenerator.posts
       (RecipeGenerator.generateRecipe
          (RecipeGenerator.run (RecipeGenerator.add (js "rice") RecipeGenerator.initial)
             [RecipeGenerator.setDietaryPreferences (js "  ")]))
     = [(url, body)]
     /\ get "dietary_preferences" body = Some (JString (js "  ")))
  /\
  (exists url body,
     MenuAnalyzer.posts
       (MenuAnalyzer.analyzeMenu
          (MenuAnalyzer.run (MenuAnalyzer.add (js "soup") MenuAnalyzer.initial)
             [MenuAnalyzer.setRestaurantName (js " ")]))
     = [(url, body)]
     /\ get "restaurant_name" body = Some (JString (js " "))).
Proof.
  destruct (nonblank_modifier_sent_verbatim
              (RecipeGenerator.run (RecipeGenerator.add (js "rice") RecipeGenerator.initial)
                 [RecipeGenerator.setDietaryPreferences (js "  ")])
              (MenuAnalyzer.run (MenuAnalyzer.add (js "soup") MenuAnalyzer.initial)
                 [MenuAnalyzer.setRestaurantName (js " ")])) as [HR HM].
  split.
  - apply HR; vm_compute; discriminate.
  - apply HM; vm_compute; discriminate.
Defined.

(* ================================================================= *)
(** ** Further properties of the views                                *)
(* ================================================================= *)

Section ViewFacts.

Lemma menu_icon_has_no_text (score : jsstring) :
  texts (MenuAnalyzer.getScoreIcon score) = [].
Proof.
  unfold MenuAnalyzer.getScoreIcon.
  destruct (eqb score (js "green")); [reflexivity|].
  destruct (eqb score (js "yellow")); [reflexivity|].
  destruct (eqb score (js "red")); reflexivity.
Qed.

Lemma menu_icon_is_no_list (score : jsstring) :
  by_tag "ul" (MenuAnalyzer.getScoreIcon score) = [].
Proof.
  unfold MenuAnalyzer.getScoreIcon.
  destruct (eqb score (js "green")); [reflexivity|].
  destruct (eqb score (js "yellow")); [reflexivity|].
  destruct (eqb score (js "red")); reflexivity.
Qed.

End ViewFacts.

(** X11: for every recipe the card shows one entry per ingredient, in
    order, keyed by position, and one entry per instruction, in order,
    numbered from 1; the two badges carry the colour class and the icon
    that the look-ups give for the eco score and the health score. *)
Theorem recipe_card_lists (r : RecipeResponse.t) :
  let view := RecipeGenerator.recipeCard r in
  let ingredient_entries := flat_map children (by_tag "ul" view) in
  let instruction_entries := flat_map children (by_tag "ol" view) in
  let badges := children (nth 1 (children view) (text [])) in
  List.map texts ingredient_entries
  = List.map (fun x => [x]) (RecipeResponse.ingredients r)
  /\ List.map key ingredient_entries
     = List.map Some (seq 0 (List.length (RecipeResponse.ingredients r)))
  /\ List.map texts instruction_entries
     = List.map (fun x => [x]) (RecipeResponse.instructions r)
  /\ List.map numbers instruction_entries
     = List.map (fun k => [Z.of_nat k + 1]%Z)
         (seq 0 (List.length (RecipeResponse.instructions r)))
  /\ List.map (fun badge => (className badge, texts badge)) badges
     = [ (js "p-3 rounded-lg "
          ++ RecipeGenerator.getScoreColor (RecipeResponse.eco_score r),
          [js "Eco Score"; RecipeGenerator.getScoreIcon (RecipeResponse.eco_score r)]);
         (js "p-3 rounded-lg "
          ++ RecipeGenerator.getScoreColor (RecipeResponse.health_score r),
          [js "Health Score";
           RecipeGenerator.getScoreIcon (RecipeResponse.health_score r)]) ].
Proof.
  intros view ingredient_entries instruction_entries badges.
  subst ingredient_entries instruction_entries badges view.
  unfold RecipeGenerator.recipeCard.
  cbn [by_tag flat_map app String.eqb Ascii.eqb Bool.eqb children nth].
  unfold Array_map.
  rewrite !flat_map_map_from_nil by reflexivity.
  cbn [app flat_map children]. rewrite ?app_nil_r.
  repeat split.
  - apply map_from_observe. reflexivity.
  - apply map_from_observe_index. reflexivity.
  - apply map_from_observe. reflexivity.
  - apply map_from_observe_index. reflexivity.
Qed.

(** X12: for every analysis the card shows one list entry per
    recommendation, in order, keyed by position, and one block per
    analysed menu item, in order, keyed by position, with the item's name
    and suggestion and a badge carrying the colour class and the icon that
    the look-ups give for its rating; the overall badge does the same for
    the overall score. *)
Theorem analysis_card_lists (a : MenuAnalysisResponse.t) :
  let view := MenuAnalyzer.analysisCard a in
  let recommendation_entries := flat_map children (by_tag "ul" view) in
  let blocks :=
    children (nth 1 (children (nth 2 (children view) (text []))) (text [])) in
  let badge_of block :=
    nth 1 (children (nth 0 (children block) (text []))) (text []) in
  let overall :=
    nth 1 (children (nth 0 (children (nth 0 (children view) (text []))) (text [])))
      (text []) in
  List.map texts recommendation_entries
  = List.map (fun x => [x]) (MenuAnalysisResponse.recommendations a)
  /\ List.map key recommendation_entries
     = List.map Some (seq 0 (List.length (MenuAnalysisResponse.recommendations a)))
  /\ List.map key blocks
     = List.map Some (seq 0 (List.length (MenuAnalysisResponse.menu_items_analysis a)))
  /\ List.map texts blocks
     = List.map
         (fun it => [MenuAnalysisResponse.item it; MenuAnalysisResponse.suggestion it])
         (MenuAnalysisResponse.menu_items_analysis a)
  /\ List.map (fun block => (className (badge_of block), children (badge_of block)))
       blocks
     = List.map
         (fun it =>
            (js "px-2 py-1 rounded-full text-xs "
             ++ MenuAnalyzer.getScoreColor (MenuAnalysisResponse.eco_rating it),
             [MenuAnalyzer.getScoreIcon (MenuAnalysisResponse.eco_rating it)]))
         (MenuAnalysisResponse.menu_items_analysis a)
  /\ className overall
     = js "px-3 py-1 rounded-full "
       ++ MenuAnalyzer.getScoreColor (MenuAnalysisResponse.overall_eco_score a)
  /\ nth 0 (children (nth 0 (children overall) (text []))) (text [])
     = MenuAnalyzer.getScoreIcon (MenuAnalysisResponse.overall_eco_score a).
Proof.
  intros view recommendation_entries blocks badge_of overall.
  subst recommendation_entries blocks badge_of overall view.
  unfold MenuAnalyzer.analysisCard.
  cbn [by_tag flat_map app String.eqb Ascii.eqb Bool.eqb children nth className].
  unfold Array_map.
  rewrite menu_icon_is_no_list.
  rewrite (flat_map_map_from_nil (by_tag "ul")) by reflexivity.
  rewrite (flat_map_map_from_nil (by_tag "ul"))
    by (intros; cbn [by_tag flat_map app String.eqb Ascii.eqb Bool.eqb];
        now rewrite menu_icon_is_no_list).
  cbn [app flat_map children]. rewrite ?app_nil_r.
  repeat split.
  - apply map_from_observe. reflexivity.
  - apply map_from_observe_index. reflexivity.
  - apply map_from_observe_index. reflexivity.
  - apply map_from_observe. intros x k. cbn [texts flat_map app].
    now rewrite menu_icon_has_no_text.
  - apply map_from_observe. reflexivity.
Qed.

(* ================================================================= *)
(** ** Further properties of the score look-ups                       *)
(* ================================================================= *)

Section ScoreClasses.

Lemma recipe_color_by_class (s : jsstring) :
  RecipeGenerator.getScoreColor s
  = match classify s with
    | IsGreen => js "text-green-600 bg-green-100"
    | IsYellow => js "text-yellow-600 bg-yellow-100"
    | IsRed => js "text-red-600 bg-red-100"
    | IsOther => js "text-gray-600 bg-gray-100"
    end.
Proof.
  unfold RecipeGenerator.getScoreColor, classify.
  destruct (eqb s (js "green")); [reflexivity|].
  destruct (eqb s (js "yellow")); [reflexivity|].
  destruct (eqb s (js "red")); reflexivity.
Qed.

Lemma menu_color_by_class (s : jsstring) :
  MenuAnalyzer.getScoreColor s
  = match classify s with
    | IsGreen => js "text-green-600 bg-green-100"
    | IsYellow => js "text-yellow-600 bg-yellow-100"
    | IsRed => js "text-red-600 bg-red-100"
    | IsOther => js "text-gray-600 bg-gray-100"
    end.
Proof.
  unfold MenuAnalyzer.getScoreColor, classify.
  destruct (eqb s (js "green")); [reflexivity|].
  destruct (eqb s (js "yellow")); [reflexivity|].
  destruct (eqb s (js "red")); reflexivity.
Qed.

Lemma recipe_icon_by_class (s : jsstring) :
  RecipeGenerator.getScoreIcon s
  = match classify s with
    | IsGreen => RecipeGenerator.check_mark
    | IsYellow | IsRed => RecipeGenerator.warning_sign
    | IsOther => RecipeGenerator.question_mark
    end.
Proof.
  unfold RecipeGenerator.getScoreIcon, classify.
  destruct (eqb s (js "green")); [reflexivity|].
  destruct (eqb s (js "yellow")); [reflexivity|].
  destruct (eqb s (js "red")); reflexivity.
Qed.

Lemma menu_icon_by_class (s : jsstring) :
  MenuAnalyzer.getScoreIcon s
  = match classify s with
    | IsGreen => h "CheckCircle" None (js "h-5 w-5") []
    | IsYellow | IsOther => h "AlertCircle" None (js "h-5 w-5") []
    | IsRed => h "XCircle" None (js "h-5 w-5") []
    end.
Proof.
  unfold MenuAnalyzer.getScoreIcon, classify.
  destruct (eqb s (js "green")); [reflexivity|].
  destruct (eqb s (js "yellow")); [reflexivity|].
  destruct (eqb s (js "red")); reflexivity.
Qed.

End ScoreClasses.

(** X13: two scores get the same colour class exactly when the [switch]
    takes the same case for both, in either panel.  The icon tells less:
    in the recipe panel yellow and red share one, in the menu panel yellow
    and the unmatched case share one; no other two cases do. *)
Theorem colour_identifies_score_class (s t : jsstring) :
  (RecipeGenerator.getScoreColor s = RecipeGenerator.getScoreColor t
   <-> classify s = classify t)
  /\ (MenuAnalyzer.getScoreColor s = MenuAnalyzer.getScoreColor t
      <-> classify s = classify t)
  /\ (RecipeGenerator.getScoreIcon s = RecipeGenerator.getScoreIcon t
      <-> classify s = classify t
          \/ (In (classify s) [IsYellow; IsRed] /\ In (classify t) [IsYellow; IsRed]))
  /\ (MenuAnalyzer.getScoreIcon s = MenuAnalyzer.getScoreIcon t
      <-> classify s = classify t
          \/ (In (classify s) [IsYellow; IsOther]
              /\ In (classify t) [IsYellow; IsOther])).
Proof.
  rewrite ?recipe_color_by_class, ?menu_color_by_class,
    ?recipe_icon_by_class, ?menu_icon_by_class.
  destruct (classify s), (classify t); repeat split;
    try (intros H; vm_compute in H; discriminate H);
    try (intros _; reflexivity);
    try (intros _; left; reflexivity);
    try (intros _; right; simpl; tauto);
    try (intros [H|[H1 H2]]; [discriminate H | simpl in H1, H2; intuition discriminate]).
Qed.

(* ================================================================= *)
(** ** The chips and their remove buttons                             *)
(* ================================================================= *)

(** X14: every rendered chip shows the item at its own position, its
    remove button is one the view lets through, and pressing it deletes
    exactly that position: the collection gets one shorter and the other
    items keep their order. *)
Theorem chip_button_removes_its_item
    (w : RecipeGenerator.world) (mw : MenuAnalyzer.world)
    (k : nat) (label : jsstring)
    (e : RecipeGenerator.event) (me : MenuAnalyzer.event) :
  (In (k, label, e) (RecipeGenerator.ingredientChips (RecipeGenerator.panel w)) ->
   nth_error (RecipeGenerator.ingredients (RecipeGenerator.panel w)) k = Some label
   /\ RecipeGenerator.enabled w e = true
   /\ exists w',
        RecipeGenerator.fire w e = Some w'
        /\ RecipeGenerator.ingredients (RecipeGenerator.panel w')
           = firstn k (RecipeGenerator.ingredients (RecipeGenerator.panel w))
             ++ skipn (S k) (RecipeGenerator.ingredients (RecipeGenerator.panel w))
        /\ S (List.length (RecipeGenerator.ingredients (RecipeGenerator.panel w')))
           = List.length (RecipeGenerator.ingredients (RecipeGenerator.panel w)))
  /\
  (In (k, label, me) (MenuAnalyzer.menuItemChips (MenuAnalyzer.panel mw)) ->
   nth_error (MenuAnalyzer.menuItems (MenuAnalyzer.panel mw)) k = Some label
   /\ MenuAnalyzer.enabled mw me = true
   /\ exists mw',
        MenuAnalyzer.fire mw me = Some mw'
        /\ MenuAnalyzer.menuItems (MenuAnalyzer.panel mw')
           = firstn k (MenuAnalyzer.menuItems (MenuAnalyzer.panel mw))
             ++ skipn (S k) (MenuAnalyzer.menuItems (MenuAnalyzer.panel mw))
        /\ S (List.length (MenuAnalyzer.menuItems (MenuAnalyzer.panel mw')))
           = List.length (MenuAnalyzer.menuItems (MenuAnalyzer.panel mw))).
Proof.
  split; intros H.
  - apply recipe_chip_inside in H as (N & -> & L). split; [exact N|].
    assert (R : (0 <= Z.of_nat k
                 < Z.of_nat (List.length
                               (RecipeGenerator.ingredients (RecipeGenerator.panel w))))%Z)
      by lia.
    split.
    + simpl. apply andb_true_iff. split; [apply Z.leb_le | apply Z.ltb_lt]; lia.
    + eexists. split; [reflexivity|]. cbn [RecipeGenerator.panel].
      pose proof (@recipe_remove_inside (Z.of_nat k) (RecipeGenerator.panel w) R) as E.
      rewrite Nat2Z.id in E. unfold RecipeGenerator.remove in E.
      rewrite E. split; [reflexivity|].
      rewrite length_app, length_firstn, length_skipn. lia.
  - apply menu_chip_inside in H as (N & -> & L). split; [exact N|].
    assert (R : (0 <= Z.of_nat k
                 < Z.of_nat (List.length
                               (MenuAnalyzer.menuItems (MenuAnalyzer.panel mw))))%Z)
      by lia.
    split.
    + simpl. apply andb_true_iff. split; [apply Z.leb_le | apply Z.ltb_lt]; lia.
    + eexists. split; [reflexivity|]. cbn [MenuAnalyzer.panel].
      pose proof (@menu_remove_inside (Z.of_nat k) (MenuAnalyzer.panel mw) R) as E.
      rewrite Nat2Z.id in E. unfold MenuAnalyzer.remove in E.
      rewrite E. split; [reflexivity|].
      rewrite length_app, length_firstn, length_skipn. lia.
Qed.

Lemma chip_button_removes_its_item_witness :
  (exists w',
     RecipeGenerator.fire
       {| RecipeGenerator.panel :=
            RecipeGenerator.add (js "b") (RecipeGenerator.add (js "a") RecipeGenerator.initial);
          RecipeGenerator.pending := 0 |}
       (RecipeGenerator.RemoveIngredient 1) = Some w'
     /\ RecipeGenerator.ingredients (RecipeGenerator.panel w') = [js "a"])
  /\
  (exists mw',
     MenuAnalyzer.fire
       {| MenuAnalyzer.panel :=
            MenuAnalyzer.add (js "b") (MenuAnalyzer.add (js "a") MenuAnalyzer.initial);
          MenuAnalyzer.pending := 0 |}
       (MenuAnalyzer.RemoveMenuItem 0) = Some mw'
     /\ MenuAnalyzer.menuItems (MenuAnalyzer.panel mw') = [js "b"]).
Proof.
  destruct (chip_button_removes_its_item
              {| RecipeGenerator.panel :=
                   RecipeGenerator.add (js "b")
                     (RecipeGenerator.add (js "a") RecipeGenerator.initial);
                 RecipeGenerator.pending := 0 |}
              MenuAnalyzer.start 1 (js "b")
              (RecipeGenerator.RemoveIngredient 1) (MenuAnalyzer.RemoveMenuItem 1))
    as [HR _].
  destruct (chip_button_removes_its_item
              RecipeGenerator.start
              {| MenuAnalyzer.panel :=
                   MenuAnalyzer.add (js "b") (MenuAnalyzer.add (js "a") MenuAnalyzer.initial);
                 MenuAnalyzer.pending := 0 |}
              0 (js "a")
              (RecipeGenerator.RemoveIngredient 0) (MenuAnalyzer.RemoveMenuItem 0))
    as [_ HM].
  split.
  - destruct HR as (_ & _ & w' & F & E & _); [vm_compute; right; left; reflexivity|].
    exists w'. split; [exact F | exact E].
  - destruct HM as (_ & _ & w' & F & E & _); [vm_compute; left; reflexivity|].
    exists w'. split; [exact F | exact E].
Defined.

Lemma colour_identifies_score_class_witness :
  RecipeGenerator.getScoreIcon (js "red") = RecipeGenerator.getScoreIcon (js "yellow")
  /\ MenuAnalyzer.getScoreIcon (js "purple") = MenuAnalyzer.getScoreIcon (js "yellow")
  /\ RecipeGenerator.getScoreColor (js "mauve") = RecipeGenerator.getScoreColor (js "")
  /\ MenuAnalyzer.getScoreColor (js "Green") = MenuAnalyzer.getScoreColor (js "grey").
Proof.
  destruct (colour_identifies_score_class (js "red") (js "yellow")) as (_ & _ & RI & _).
  destruct (colour_identifies_score_class (js "purple") (js "yellow")) as (_ & _ & _ & MI).
  destruct (colour_identifies_score_class (js "mauve") (js "")) as (RC & _).
  destruct (colour_identifies_score_class (js "Green") (js "grey")) as (_ & MC & _).
  split; [|split; [|split]].
  - apply RI. right. vm_compute. tauto.
  - apply MI. right. vm_compute. tauto.
  - apply RC. reflexivity.
  - apply MC. reflexivity.
Defined.

(* ================================================================= *)
(** ** The tabs                                                       *)
(* ================================================================= *)

Section AppFacts.

Lemma tabClass_injective (a b : bool) : App.tabClass a = App.tabClass b -> a = b.
Proof. destruct a, b; intros H; try reflexivity; vm_compute in H; discriminate H. Qed.

End AppFacts.

(** X15: whichever tab is active, exactly the button that selects it
    carries the highlighted class, and the tab content holds exactly one
    panel, the one of that tab. *)
Theorem active_tab_is_highlighted_and_rendered (activeTab : App.tab) :
  (forall t button,
     In (t, button) (App.tabNavigation activeTab) ->
     (className button = App.tabClass true <-> t = activeTab)
     /\ (className button = App.tabClass false <-> t <> activeTab))
  /\ List.map fst (App.tabNavigation activeTab) = [App.recipe; App.menu]
  /\ (by_tag "RecipeGenerator" (App.tabContent activeTab),
      by_tag "MenuAnalyzer" (App.tabContent activeTab))
     = match activeTab with
       | App.recipe => ([h "RecipeGenerator" None (js "") []], [])
       | App.menu => ([], [h "MenuAnalyzer" None (js "") []])
       end.
Proof.
  split; [|split; [reflexivity | now destruct activeTab]].
  intros t button [H|[H|[]]]; injection H as <- <-; cbn [className];
    destruct activeTab; simpl App.tab_eqb;
    (split; split; intros H;
     try reflexivity; try discriminate H; try congruence;
     try (apply tabClass_injective in H; discriminate H)).
Qed.

Lemma active_tab_is_highlighted_and_rendered_witness :
  className
    (h "button" None (App.tabClass (App.tab_eqb App.menu App.menu))
       [ h "Users" None (js "h-4 w-4") [];
         h "span" None (js "") [ text (js "Menu Analyzer") ] ])
  = App.tabClass true
  /\ className
       (h "button" None (App.tabClass (App.tab_eqb App.menu App.recipe))
          [ h "ChefHat" None (js "h-4 w-4") [];
            h "span" None (js "") [ text (js "Recipe Generator") ] ])
     = App.tabClass false.
Proof.
  destruct (active_tab_is_highlighted_and_rendered App.menu) as (N & _).
  split.
  - refine (proj2 (proj1 (N App.menu _ _)) eq_refl). right. left. reflexivity.
  - refine (proj2 (proj2 (N App.recipe _ _)) _); [left; reflexivity | discriminate].
Defined.

(* ================================================================= *)
(** ** What an accepted add stores, and the progress text             *)
(* ================================================================= *)

(** X17: an accepted add stores the typed text with the white space at
    its two ends cut off and nothing else changed: the typed text is the
    stored item between two runs of white space, and the stored item
    neither starts nor ends with white space. *)
Theorem accepted_add_stores_the_core
    (raw : jsstring) (st : RecipeGenerator.state) (mst : MenuAnalyzer.state) :
  (trim raw <> [] -> ~ In (trim raw) (RecipeGenerator.ingredients st) ->
   exists before item after,
     RecipeGenerator.ingredients (RecipeGenerator.add raw st)
     = RecipeGenerator.ingredients st ++ [item]
     /\ raw = before ++ item ++ after
     /\ forallb isWhiteSpace before = true
     /\ forallb isWhiteSpace after = true
     /\ match item with [] => False | c :: _ => isWhiteSpace c = false end
     /\ match rev item with [] => False | c :: _ => isWhiteSpace c = false end)
  /\
  (trim raw <> [] -> ~ In (trim raw) (MenuAnalyzer.menuItems mst) ->
   exists before item after,
     MenuAnalyzer.menuItems (MenuAnalyzer.add raw mst)
     = MenuAnalyzer.menuItems mst ++ [item]
     /\ raw = before ++ item ++ after
     /\ forallb isWhiteSpace before = true
     /\ forallb isWhiteSpace after = true
     /\ match item with [] => False | c :: _ => isWhiteSpace c = false end
     /\ match rev item with [] => False | c :: _ => isWhiteSpace c = false end).
Proof.
  assert (Core : trim raw <> [] ->
            exists before after,
              raw = before ++ trim raw ++ after
              /\ forallb isWhiteSpace before = true
              /\ forallb isWhiteSpace after = true
              /\ match trim raw with [] => False | c :: _ => isWhiteSpace c = false end
              /\ match rev (trim raw) with [] => False | c :: _ => isWhiteSpace c = false end).
  { intros Hx. destruct (trim_decompose raw) as (p & q & E & Hp & Hq).
    exists p, q. repeat split; try assumption.
    - pose proof (trim_first raw) as F. destruct (trim raw); [congruence | exact F].
    - pose proof (trim_last raw) as L.
      destruct (rev (trim raw)) eqn:R; [|exact L].
      apply (f_equal (@rev N)) in R. rewrite rev_involutive in R. simpl in R. congruence. }
  split; intros Hx Hin; destruct (Core Hx) as (p & q & E & Hp & Hq & F & L);
    exists p, (trim raw), q; repeat split; try assumption.
  - exact (proj1 (recipe_add_appends raw st Hx Hin)).
  - exact (proj1 (menu_add_appends raw mst Hx Hin)).
Qed.

Lemma accepted_add_stores_the_core_witness :
  (exists before item after,
     RecipeGenerator.ingredients (RecipeGenerator.add (js "  olive oil ") RecipeGenerator.initial)
     = RecipeGenerator.ingredients RecipeGenerator.initial ++ [item]
     /\ js "  olive oil " = before ++ item ++ after
     /\ forallb isWhiteSpace before = true
     /\ forallb isWhiteSpace after = true
     /\ match item with [] => False | c :: _ => isWhiteSpace c = false end
     /\ match rev item with [] => False | c :: _ => isWhiteSpace c = false end)
  /\
  (exists before item after,
     MenuAnalyzer.menuItems (MenuAnalyzer.add (js "  olive oil ") MenuAnalyzer.initial)
     = MenuAnalyzer.menuItems MenuAnalyzer.initial ++ [item]
     /\ js "  olive oil " = before ++ item ++ after
     /\ forallb isWhiteSpace before = true
     /\ forallb isWhiteSpace after = true
     /\ match item with [] => False | c :: _ => isWhiteSpace c = false end
     /\ match rev item with [] => False | c :: _ => isWhiteSpace c = false end).
Proof.
  destruct (accepted_add_stores_the_core (js "  olive oil ")
              RecipeGenerator.initial MenuAnalyzer.initial) as [HR HM].
  split.
  - apply HR; [vm_compute; discriminate | simpl; tauto].
  - apply HM; [vm_compute; discriminate | simpl; tauto].
Defined.

Section Placeholder.

Lemma recipe_card_has_many_texts (r : RecipeResponse.t) (x : jsstring) :
  texts (RecipeGenerator.recipeCard r) <> [x].
Proof. unfold RecipeGenerator.recipeCard. cbn [texts flat_map app]. discriminate. Qed.

Lemma analysis_card_has_many_texts (a : MenuAnalysisResponse.t) (x : jsstring) :
  texts (MenuAnalyzer.analysisCard a) <> [x].
Proof.
  unfold MenuAnalyzer.analysisCard. cbn [texts flat_map app].
  rewrite menu_icon_has_no_text. cbn [app]. discriminate.
Qed.

End Placeholder.

(** X18: through the controls as rendered, the display section shows the
    progress text, and nothing else, exactly while a request is in
    flight. *)
Theorem progress_text_while_in_flight
    (w : RecipeGenerator.world) (mw : MenuAnalyzer.world) :
  (RecipeGenerator.ui_reachable w ->
   (texts (RecipeGenerator.recipeDisplay (RecipeGenerator.panel w))
    = [js "Generating your recipe..."]
    <-> RecipeGenerator.pending w = 1))
  /\
  (MenuAnalyzer.ui_reachable mw ->
   (texts (MenuAnalyzer.analysisDisplay (MenuAnalyzer.panel mw))
    = [js "Analyzing your menu..."]
    <-> MenuAnalyzer.pending mw = 1)).
Proof.
  split; intros R.
  - apply recipe_ui_consistent in R. unfold RecipeGenerator.consistent in R.
    unfold RecipeGenerator.recipeDisplay.
    destruct (RecipeGenerator.loading (RecipeGenerator.panel w)).
    + destruct R as (P & _ & N). rewrite N, P. split; reflexivity.
    + destruct R as (P & _). rewrite P.
      destruct (RecipeGenerator.recipe (RecipeGenerator.panel w)) as [r|].
      * split; [intros H; now apply recipe_card_has_many_texts in H | discriminate].
      * split; [intros H; vm_compute in H; discriminate H | discriminate].
  - apply menu_ui_consistent in R. unfold MenuAnalyzer.consistent in R.
    unfold MenuAnalyzer.analysisDisplay.
    destruct (MenuAnalyzer.loading (MenuAnalyzer.panel mw)).
    + destruct R as (P & _ & N). rewrite N, P. split; reflexivity.
    + destruct R as (P & _). rewrite P.
      destruct (MenuAnalyzer.analysis (MenuAnalyzer.panel mw)) as [r|].
      * split; [intros H; now apply analysis_card_has_many_texts in H | discriminate].
      * split; [intros H; vm_compute in H; discriminate H | discriminate].
Qed.

Lemma progress_text_while_in_flight_witness :
  (exists w,
     RecipeGenerator.ui_fire_all RecipeGenerator.start
       [ RecipeGenerator.TypeIngredient (js "rice"); RecipeGenerator.AddIngredient;
         RecipeGenerator.GenerateRecipe ] = Some w
     /\ RecipeGenerator.pending w = 1)
  /\
  (exists mw,
     MenuAnalyzer.ui_fire_all MenuAnalyzer.start
       [ MenuAnalyzer.TypeMenuItem (js "soup"); MenuAnalyzer.AddMenuItem;
         MenuAnalyzer.AnalyzeMenu ] = Some mw
     /\ MenuAnalyzer.pending mw = 1).
Proof.
  split.
  - eexists. split; [vm_compute; reflexivity|].
    match goal with
    | |- RecipeGenerator.pending ?w = 1 =>
        refine (proj1 (proj1 (progress_text_while_in_flight w MenuAnalyzer.start) _) _)
    end.
    + apply recipe_ui_fire_all_reachable with
        (es := [ RecipeGenerator.TypeIngredient (js "rice"); RecipeGenerator.AddIngredient;
                 RecipeGenerator.GenerateRecipe ])
        (w := RecipeGenerator.start);
        [apply RecipeGenerator.ui_start | vm_compute; reflexivity].
    + vm_compute. reflexivity.
  - eexists. split; [vm_compute; reflexivity|].
    match goal with
    | |- MenuAnalyzer.pending ?w = 1 =>
        refine (proj1 (proj2 (progress_text_while_in_flight RecipeGenerator.start w) _) _)
    end.
    + apply menu_ui_fire_all_reachable with
        (es := [ MenuAnalyzer.TypeMenuItem (js "soup"); MenuAnalyzer.AddMenuItem;
                 MenuAnalyzer.AnalyzeMenu ])
        (w := MenuAnalyzer.start);
        [apply MenuAnalyzer.ui_start | vm_compute; reflexivity].
    + vm_compute. reflexivity.
Defined.
